(** * Lanthing PC: a shallow embedding of the host-side encoder wrapper,
      the service manager, the Win32 input replay and the display query.

    Every definition below is a transcription of one C++ function of the
    repository.  External code (the NVENC driver, the Win32 API) is not
    modelled: its answers are read from an explicit oracle and every call
    the program makes to it is recorded in a trace. *)

From Stdlib Require Import ZArith List Bool Lia String SpecFloat.
Import ListNotations.
Local Open Scope Z_scope.

(* ===================================================================== *)
(** * Machine integers and binary32 arithmetic *)
(* ===================================================================== *)

Module Machine.

(** [uint32_t], [uint16_t] (Windows WORD) and [int32_t] (Windows LONG)
    conversions: the value is reduced modulo the width. *)
Definition to_u32 (z : Z) : Z := z mod 2 ^ 32.
Definition to_u16 (z : Z) : Z := z mod 2 ^ 16.
Definition to_i32 (z : Z) : Z := (z + 2 ^ 31) mod 2 ^ 32 - 2 ^ 31.

(** C++ [float] is IEEE-754 binary32: 24 bits of precision, emax 128. *)
Definition float32 := spec_float.
Definition f32_prec : Z := 24.
Definition f32_emax : Z := 128.

(** Integer to [float] conversion (round to nearest, ties to even). *)
Definition f32_of_int (n : Z) : float32 :=
  binary_normalize f32_prec f32_emax n 0 false.

Definition f32_mul (x y : float32) : float32 := SFmul f32_prec f32_emax x y.

(** Truncation toward zero of a finite value. *)
Definition f32_trunc (x : float32) : option Z :=
  match x with
  | S754_zero _ => Some 0
  | S754_finite s m e =>
      let a := if 0 <=? e then Z.pos m * 2 ^ e else Z.pos m / 2 ^ (- e) in
      Some (if s then - a else a)
  | S754_infinity _ | S754_nan => None
  end.

(** [static_cast<uint32_t>(float)].  C++ defines it when the truncated
    value fits; outside that range the value written here is the one the
    x64 conversion leaves (low 32 bits, 0 for NaN and infinities). *)
Definition f32_to_u32 (x : float32) : Z :=
  match f32_trunc x with
  | Some z => to_u32 z
  | None => 0
  end.

(** [static_cast<LONG>(float)]; out of range the x86 conversion yields the
    "integer indefinite" value [-2^31]. *)
Definition f32_to_i32 (x : float32) : Z :=
  match f32_trunc x with
  | Some z => if (- 2 ^ 31 <=? z) && (z <? 2 ^ 31) then z else - 2 ^ 31
  | None => - 2 ^ 31
  end.

(** The literal [1.05f]: 0x3F866666. *)
Definition f32_1_05 : float32 := S754_finite false 8808038 (-23).

(** The literal [65535.0f]: 0x477FFF00. *)
Definition f32_65535 : float32 := S754_finite false 16776960 (-8).

(** The real number a finite binary32 value denotes is [m * 2^e]; the
    order on non-negative values is decided on cross-multiplied integers. *)
Definition f32_nonneg (x : float32) : bool :=
  match x with
  | S754_zero _ => true
  | S754_finite s _ _ => negb s
  | _ => false
  end.

(** [x <= 1] for a valid finite binary32 value. *)
Definition f32_le_one (x : float32) : bool :=
  match x with
  | S754_zero _ => true
  | S754_finite true _ _ => true
  | S754_finite false m e =>
      if 0 <=? e then (Z.pos m * 2 ^ e <=? 1) else (Z.pos m <=? 2 ^ (- e))
  | _ => false
  end.

End Machine.
Import Machine.

(* ===================================================================== *)
(** * nvidia_encoder.cpp *)
(* ===================================================================== *)

Module NvEnc.

(** ** Types of nvEncodeAPI.h that the wrapper touches *)

Definition NVENCSTATUS := Z.
Definition NV_ENC_SUCCESS : NVENCSTATUS := 0.

Inductive GUID :=
| GUID_zero
| NV_ENC_CODEC_H264_GUID
| NV_ENC_CODEC_HEVC_GUID
| NV_ENC_PRESET_LOW_LATENCY_DEFAULT_GUID
| NV_ENC_PRESET_LOW_LATENCY_HP_GUID
| NV_ENC_PRESET_LOW_LATENCY_HQ_GUID
| NV_ENC_PRESET_LOSSLESS_DEFAULT_GUID
| NV_ENC_PRESET_LOSSLESS_HP_GUID
| NV_ENC_H264_PROFILE_MAIN_GUID
| NV_ENC_H264_PROFILE_HIGH_GUID.

Definition GUID_eqb (a b : GUID) : bool :=
  match a, b with
  | GUID_zero, GUID_zero
  | NV_ENC_CODEC_H264_GUID, NV_ENC_CODEC_H264_GUID
  | NV_ENC_CODEC_HEVC_GUID, NV_ENC_CODEC_HEVC_GUID
  | NV_ENC_PRESET_LOW_LATENCY_DEFAULT_GUID, NV_ENC_PRESET_LOW_LATENCY_DEFAULT_GUID
  | NV_ENC_PRESET_LOW_LATENCY_HP_GUID, NV_ENC_PRESET_LOW_LATENCY_HP_GUID
  | NV_ENC_PRESET_LOW_LATENCY_HQ_GUID, NV_ENC_PRESET_LOW_LATENCY_HQ_GUID
  | NV_ENC_PRESET_LOSSLESS_DEFAULT_GUID, NV_ENC_PRESET_LOSSLESS_DEFAULT_GUID
  | NV_ENC_PRESET_LOSSLESS_HP_GUID, NV_ENC_PRESET_LOSSLESS_HP_GUID
  | NV_ENC_H264_PROFILE_MAIN_GUID, NV_ENC_H264_PROFILE_MAIN_GUID
  | NV_ENC_H264_PROFILE_HIGH_GUID, NV_ENC_H264_PROFILE_HIGH_GUID => true
  | _, _ => false
  end.

Inductive NV_ENC_BUFFER_FORMAT :=
| NV_ENC_BUFFER_FORMAT_NV12
| NV_ENC_BUFFER_FORMAT_ARGB
| NV_ENC_BUFFER_FORMAT_YUV444
| NV_ENC_BUFFER_FORMAT_YUV420_10BIT
| NV_ENC_BUFFER_FORMAT_YUV444_10BIT
| NV_ENC_BUFFER_FORMAT_other (raw : Z).

Definition is_10bit (f : NV_ENC_BUFFER_FORMAT) : bool :=
  match f with
  | NV_ENC_BUFFER_FORMAT_YUV420_10BIT | NV_ENC_BUFFER_FORMAT_YUV444_10BIT => true
  | _ => false
  end.

Definition is_yuv444 (f : NV_ENC_BUFFER_FORMAT) : bool :=
  match f with
  | NV_ENC_BUFFER_FORMAT_YUV444 | NV_ENC_BUFFER_FORMAT_YUV444_10BIT => true
  | _ => false
  end.

Inductive NV_ENC_PARAMS_RC_MODE := NV_ENC_PARAMS_RC_CONSTQP | NV_ENC_PARAMS_RC_VBR | NV_ENC_PARAMS_RC_CBR.

Inductive NV_ENC_PIC_TYPE :=
| NV_ENC_PIC_TYPE_P
| NV_ENC_PIC_TYPE_B
| NV_ENC_PIC_TYPE_I
| NV_ENC_PIC_TYPE_IDR
| NV_ENC_PIC_TYPE_BI
| NV_ENC_PIC_TYPE_SKIPPED
| NV_ENC_PIC_TYPE_INTRA_REFRESH
| NV_ENC_PIC_TYPE_NONREF_P
| NV_ENC_PIC_TYPE_UNKNOWN.

Definition NV_ENC_PIC_FLAG_FORCEINTRA : Z := 1.
Definition NV_ENC_PIC_FLAG_FORCEIDR : Z := 2.
Definition NV_ENC_PIC_FLAG_OUTPUT_SPSPPS : Z := 4.
Definition NVENC_INFINITE_GOPLENGTH : Z := 4294967295.

Record NV_ENC_QP := mkQP { qpInterP : Z; qpInterB : Z; qpIntra : Z }.

Record NV_ENC_RC_PARAMS := mkRc {
  rateControlMode : NV_ENC_PARAMS_RC_MODE;
  constQP : NV_ENC_QP;
  averageBitRate : Z;
  maxBitRate : Z;
  vbvBufferSize : Z;
  vbvInitialDelay : Z;
  enableMinQP : bool;
  enableMaxQP : bool;
  minQP : NV_ENC_QP;
  maxQP : NV_ENC_QP
}.

Record NV_ENC_CONFIG_H264 := mkH264 {
  h264_chromaFormatIDC : Z;
  h264_idrPeriod : Z;
  h264_maxNumRefFrames : Z;
  h264_sliceMode : Z;
  h264_sliceModeData : Z
}.

Record NV_ENC_CONFIG_HEVC := mkHevc {
  hevc_pixelBitDepthMinus8 : Z;
  hevc_chromaFormatIDC : Z;
  hevc_idrPeriod : Z;
  hevc_maxNumRefFramesInDPB : Z;
  hevc_sliceMode : Z;
  hevc_sliceModeData : Z
}.

(** [encodeCodecConfig] is a C union; the wrapper writes exactly one of
    its members, selected by the codec GUID, so the two members are kept
    side by side here. *)
Record NV_ENC_CONFIG := mkConfig {
  gopLength : Z;
  frameIntervalP : Z;
  rcParams : NV_ENC_RC_PARAMS;
  h264Config : NV_ENC_CONFIG_H264;
  hevcConfig : NV_ENC_CONFIG_HEVC
}.

(** [encodeConfig] is a pointer; the only object it is ever made to point
    at is the member [encode_config_] of the encoder object. *)
Inductive ConfigPtr := cfg_null | cfg_member.

Record NV_ENC_INITIALIZE_PARAMS := mkInit {
  encodeGUID : GUID;
  presetGUID : GUID;
  encodeWidth : Z;
  encodeHeight : Z;
  darWidth : Z;
  darHeight : Z;
  frameRateNum : Z;
  frameRateDen : Z;
  enableEncodeAsync : bool;
  enablePTD : bool;
  reportSliceOffsets : bool;
  enableSubFrameWrite : bool;
  maxEncodeWidth : Z;
  maxEncodeHeight : Z;
  encodeConfig : ConfigPtr
}.

Record NV_ENC_PIC_PARAMS := mkPic {
  inputWidth : Z;
  inputHeight : Z;
  encodePicFlags : Z;
  inputBuffer : Z;
  outputBitstream : Z;
  completionEvent : Z;
  bufferFmt : NV_ENC_BUFFER_FORMAT
}.

Record NV_ENC_MAP_INPUT_RESOURCE := mkMapped {
  registeredResource : Z;
  mappedResource : Z
}.

(** [ltproto::client2worker::VideoFrame], the two members set here. *)
Record VideoFrame := mkFrame {
  frame : list Z;
  is_keyframe : bool
}.

(** ** Field updates *)

Definition rc_set_bitrate (avg mx : Z) (r : NV_ENC_RC_PARAMS) : NV_ENC_RC_PARAMS :=
  mkRc (rateControlMode r) (constQP r) avg mx (vbvBufferSize r) (vbvInitialDelay r)
       (enableMinQP r) (enableMaxQP r) (minQP r) (maxQP r).

Definition cfg_set_rc (r : NV_ENC_RC_PARAMS) (c : NV_ENC_CONFIG) : NV_ENC_CONFIG :=
  mkConfig (gopLength c) (frameIntervalP c) r (h264Config c) (hevcConfig c).

Definition init_set_frameRateNum (n : Z) (p : NV_ENC_INITIALIZE_PARAMS) : NV_ENC_INITIALIZE_PARAMS :=
  mkInit (encodeGUID p) (presetGUID p) (encodeWidth p) (encodeHeight p) (darWidth p)
         (darHeight p) n (frameRateDen p) (enableEncodeAsync p) (enablePTD p)
         (reportSliceOffsets p) (enableSubFrameWrite p) (maxEncodeWidth p)
         (maxEncodeHeight p) (encodeConfig p).

(** ** Encoder parameters handed to [init]

    [lt::VideoEncodeParamsHelper] is declared in params_helper.h, which is
    outside the files covered here; the record holds the values of the
    accessors that nvidia_encoder.cpp calls on it. *)

Inductive VideoCodecType := Codec_Unknown | H264 | H265.
Inductive RcMode := RcMode_other | CBR | VBR.
Inductive Preset := Preset_other | Balanced | Speed | Quality.
Inductive Profile := Profile_other | AvcMain | HevcMain.

Record VideoEncodeParamsHelper := mkHelper {
  vp_width : Z;
  vp_height : Z;
  vp_codec : VideoCodecType;
  vp_fps : Z;
  vp_bitrate : Z;
  vp_qmin : Z * Z * Z;
  vp_qmax : Z * Z * Z;
  vp_vbvbufsize : option Z;
  vp_vbvinit : option Z;
  vp_gop : Z;
  vp_rc : RcMode;
  vp_preset : Preset;
  vp_profile : Profile
}.

(** [VideoEncoder::ReconfigureParams] (video_encoder.h, outside the files
    covered here): the two members [reconfigure] reads, both
    [std::optional<uint32_t>]. *)
Record ReconfigureParams := mkReconf {
  bitrate_bps : option Z;
  fps : option Z
}.

(** ** NvEncParamsHelper *)

Definition helper_fps (p : VideoEncodeParamsHelper) : Z := vp_fps p.
Definition helper_bitrate (p : VideoEncodeParamsHelper) : Z := to_u32 (vp_bitrate p).
Definition helper_maxbitrate (p : VideoEncodeParamsHelper) : Z :=
  f32_to_u32 (f32_mul (f32_of_int (helper_bitrate p)) f32_1_05).
Definition helper_qmin (p : VideoEncodeParamsHelper) : NV_ENC_QP :=
  let '(a, b, c) := vp_qmin p in mkQP a b c.
Definition helper_qmax (p : VideoEncodeParamsHelper) : NV_ENC_QP :=
  let '(a, b, c) := vp_qmax p in mkQP a b c.

(** The [default:] arms sit behind [assert(false)]; the value is the one
    a build without assertions returns. *)
Definition helper_rc (p : VideoEncodeParamsHelper) : NV_ENC_PARAMS_RC_MODE :=
  match vp_rc p with
  | CBR => NV_ENC_PARAMS_RC_CBR
  | VBR => NV_ENC_PARAMS_RC_VBR
  | RcMode_other => NV_ENC_PARAMS_RC_CBR
  end.

Definition helper_preset (p : VideoEncodeParamsHelper) : GUID :=
  match vp_preset p with
  | Balanced => NV_ENC_PRESET_LOW_LATENCY_DEFAULT_GUID
  | Speed => NV_ENC_PRESET_LOW_LATENCY_HP_GUID
  | Quality => NV_ENC_PRESET_LOW_LATENCY_HQ_GUID
  | Preset_other => NV_ENC_PRESET_LOW_LATENCY_DEFAULT_GUID
  end.

Definition helper_codec (p : VideoEncodeParamsHelper) : GUID :=
  match vp_codec p with
  | H264 => NV_ENC_CODEC_H264_GUID
  | H265 => NV_ENC_CODEC_HEVC_GUID
  | Codec_Unknown => NV_ENC_CODEC_H264_GUID
  end.

Definition helper_profile (p : VideoEncodeParamsHelper) : GUID :=
  match vp_profile p with
  | AvcMain => NV_ENC_H264_PROFILE_MAIN_GUID
  | HevcMain => NV_ENC_H264_PROFILE_HIGH_GUID
  | Profile_other => NV_ENC_H264_PROFILE_MAIN_GUID
  end.

(** ** The encoder object *)

(** Of the function list only [nvEncOpenEncodeSessionEx] is tested
    against [nullptr]; the flag says whether the pointer is set. *)
Record NV_ENCODE_API_FUNCTION_LIST := mkFuncs { nvEncOpenEncodeSessionEx : bool }.

Record NvD3d11EncoderImpl := mkImpl {
  d3d11_dev_ : Z;
  width_ : Z;
  height_ : Z;
  codec_type_ : VideoCodecType;
  nvapi_ : bool;
  nvfuncs_ : NV_ENCODE_API_FUNCTION_LIST;
  nvencoder_ : Z;
  buffer_format_ : NV_ENC_BUFFER_FORMAT;
  init_params_ : NV_ENC_INITIALIZE_PARAMS;
  encode_config_ : NV_ENC_CONFIG;
  bitstream_output_buffer_ : Z;
  event_ : Z;
  async_ : bool
}.

Definition set_dims (w h : Z) (c : VideoCodecType) (s : NvD3d11EncoderImpl) :=
  mkImpl (d3d11_dev_ s) w h c (nvapi_ s) (nvfuncs_ s) (nvencoder_ s) (buffer_format_ s)
         (init_params_ s) (encode_config_ s) (bitstream_output_buffer_ s) (event_ s) (async_ s).
Definition set_nvapi (b : bool) (s : NvD3d11EncoderImpl) :=
  mkImpl (d3d11_dev_ s) (width_ s) (height_ s) (codec_type_ s) b (nvfuncs_ s) (nvencoder_ s)
         (buffer_format_ s) (init_params_ s) (encode_config_ s) (bitstream_output_buffer_ s)
         (event_ s) (async_ s).
Definition set_nvfuncs (f : NV_ENCODE_API_FUNCTION_LIST) (s : NvD3d11EncoderImpl) :=
  mkImpl (d3d11_dev_ s) (width_ s) (height_ s) (codec_type_ s) (nvapi_ s) f (nvencoder_ s)
         (buffer_format_ s) (init_params_ s) (encode_config_ s) (bitstream_output_buffer_ s)
         (event_ s) (async_ s).
Definition set_nvencoder (e : Z) (s : NvD3d11EncoderImpl) :=
  mkImpl (d3d11_dev_ s) (width_ s) (height_ s) (codec_type_ s) (nvapi_ s) (nvfuncs_ s) e
         (buffer_format_ s) (init_params_ s) (encode_config_ s) (bitstream_output_buffer_ s)
         (event_ s) (async_ s).
Definition set_init_params (p : NV_ENC_INITIALIZE_PARAMS) (s : NvD3d11EncoderImpl) :=
  mkImpl (d3d11_dev_ s) (width_ s) (height_ s) (codec_type_ s) (nvapi_ s) (nvfuncs_ s)
         (nvencoder_ s) (buffer_format_ s) p (encode_config_ s) (bitstream_output_buffer_ s)
         (event_ s) (async_ s).
Definition set_encode_config (c : NV_ENC_CONFIG) (s : NvD3d11EncoderImpl) :=
  mkImpl (d3d11_dev_ s) (width_ s) (height_ s) (codec_type_ s) (nvapi_ s) (nvfuncs_ s)
         (nvencoder_ s) (buffer_format_ s) (init_params_ s) c (bitstream_output_buffer_ s)
         (event_ s) (async_ s).
Definition set_bitstream_output_buffer (b : Z) (s : NvD3d11EncoderImpl) :=
  mkImpl (d3d11_dev_ s) (width_ s) (height_ s) (codec_type_ s) (nvapi_ s) (nvfuncs_ s)
         (nvencoder_ s) (buffer_format_ s) (init_params_ s) (encode_config_ s) b
         (event_ s) (async_ s).
Definition set_event (e : Z) (s : NvD3d11EncoderImpl) :=
  mkImpl (d3d11_dev_ s) (width_ s) (height_ s) (codec_type_ s) (nvapi_ s) (nvfuncs_ s)
         (nvencoder_ s) (buffer_format_ s) (init_params_ s) (encode_config_ s)
         (bitstream_output_buffer_ s) e (async_ s).

(** ** Calls leaving the wrapper, and the driver that answers them *)

Inductive NvCall :=
| Call_DynamicLibrary_load
| Call_getFunc (name : string)
| Call_NvEncodeAPIGetMaxSupportedVersion
| Call_NvEncodeAPICreateInstance
| Call_nvEncOpenEncodeSessionEx (device : Z)
| Call_nvEncGetEncodePresetConfig (enc : Z) (encode preset : GUID)
| Call_nvEncInitializeEncoder (enc : Z) (p : NV_ENC_INITIALIZE_PARAMS) (pointee : NV_ENC_CONFIG)
| Call_CreateEventA
| Call_nvEncRegisterAsyncEvent (enc ev : Z)
| Call_nvEncCreateBitstreamBuffer (enc : Z)
| Call_nvEncReconfigureEncoder (enc : Z) (p : NV_ENC_INITIALIZE_PARAMS) (pointee : NV_ENC_CONFIG)
| Call_nvEncRegisterResource (enc frame : Z)
| Call_nvEncMapInputResource (enc registered : Z)
| Call_nvEncEncodePicture (enc : Z) (pic : NV_ENC_PIC_PARAMS)
| Call_WaitForSingleObject (ev : Z)
| Call_nvEncLockBitstream (enc buf : Z)
| Call_nvEncUnlockBitstream (enc buf : Z)
| Call_nvEncUnmapInputResource (enc : Z) (address_of : NV_ENC_MAP_INPUT_RESOURCE)
| Call_nvEncUnregisterResource (enc registered : Z)
| Call_nvEncGetEncodeStats (enc buf : Z)
| LOG_ERR (what : string)
| LOG_INFO (what : string).

(** The calls made so far, oldest first. *)
Definition History := list NvCall.

(** The driver is deterministic in the history: each answer may depend on
    every call made before it. *)
Record NvDriver := mkDriver {
  on_load : History -> bool;
  on_getFunc : string -> History -> bool;
  on_GetMaxSupportedVersion : History -> NVENCSTATUS * Z;
  on_CreateInstance : History -> NVENCSTATUS * NV_ENCODE_API_FUNCTION_LIST;
  on_OpenEncodeSessionEx : History -> NVENCSTATUS * Z;
  on_GetEncodePresetConfig : GUID -> GUID -> History -> NV_ENC_CONFIG;
  on_InitializeEncoder : History -> NVENCSTATUS;
  on_CreateEventA : History -> Z;
  on_CreateBitstreamBuffer : History -> NVENCSTATUS * Z;
  on_ReconfigureEncoder : History -> NVENCSTATUS;
  on_RegisterResource : History -> NVENCSTATUS * Z;
  on_MapInputResource : History -> NVENCSTATUS * Z;
  on_EncodePicture : History -> NVENCSTATUS;
  on_WaitForSingleObject : History -> bool; (* false: WAIT_FAILED *)
  on_LockBitstream : History -> NVENCSTATUS * list Z;
  on_UnlockBitstream : History -> NVENCSTATUS;
  on_UnmapInputResource : History -> NVENCSTATUS;
  on_UnregisterResource : History -> NVENCSTATUS;
  on_GetEncodeStats : History -> NV_ENC_PIC_TYPE
}.

(** ** State, trace and result threaded through the member functions *)

Definition Enc (A : Type) : Type :=
  NvD3d11EncoderImpl -> History -> A * NvD3d11EncoderImpl * History.

Definition ret {A : Type} (a : A) : Enc A := fun s h => (a, s, h).

Definition bind {A B : Type} (m : Enc A) (k : A -> Enc B) : Enc B :=
  fun s h => let r := m s h in k (fst (fst r)) (snd (fst r)) (snd r).

Definition get : Enc NvD3d11EncoderImpl := fun s h => (s, s, h).

Definition modify (f : NvD3d11EncoderImpl -> NvD3d11EncoderImpl) : Enc unit :=
  fun s h => (tt, f s, h).

(** Make a call and read the driver's answer to it. *)
Definition ask {A : Type} (c : NvCall) (answer : History -> A) : Enc A :=
  fun s h => (answer h, s, h ++ [c]).

Definition log_err (what : string) : Enc unit :=
  fun s h => (tt, s, h ++ [LOG_ERR what]).

Definition log_info (what : string) : Enc unit :=
  fun s h => (tt, s, h ++ [LOG_INFO what]).

Definition result {A : Type} (r : A * NvD3d11EncoderImpl * History) : A := fst (fst r).
Definition final {A : Type} (r : A * NvD3d11EncoderImpl * History) : NvD3d11EncoderImpl :=
  snd (fst r).
Definition trace {A : Type} (r : A * NvD3d11EncoderImpl * History) : History := snd r.

Declare Scope enc_scope.
Delimit Scope enc_scope with enc.
Notation "x <- c1 ;; c2" := (bind c1 (fun x => c2))
  (at level 61, c1 at next level, right associativity) : enc_scope.
Notation "c1 ;; c2" := (bind c1 (fun _ => c2))
  (at level 61, right associativity) : enc_scope.
Local Open Scope string_scope.
Local Open Scope list_scope.
Local Open Scope Z_scope.
Local Open Scope enc_scope.

Definition succeeded (status : NVENCSTATUS) : bool := status =? NV_ENC_SUCCESS.

Section WithDriver.

Variable drv : NvDriver.

(** NvD3d11EncoderImpl::reconfigure *)
Definition reconfigure (params : ReconfigureParams) : Enc unit :=
  changed <-
    match bitrate_bps params with
    | Some v =>
        modify (fun s =>
          set_encode_config
            (cfg_set_rc
               (rc_set_bitrate (to_u32 v)
                  (f32_to_u32 (f32_mul (f32_of_int (to_u32 v)) f32_1_05))
                  (rcParams (encode_config_ s)))
               (encode_config_ s)) s) ;;
        ret true
    | None => ret false
    end ;;
  changed <-
    match fps params with
    | Some v =>
        modify (fun s =>
          set_init_params (init_set_frameRateNum (to_u32 v) (init_params_ s)) s) ;;
        ret true
    | None => ret changed
    end ;;
  if negb changed then ret tt
  else
    s <- get ;;
    status <- ask (Call_nvEncReconfigureEncoder (nvencoder_ s) (init_params_ s)
                     (encode_config_ s))
                  (on_ReconfigureEncoder drv) ;;
    if negb (succeeded status)
    then log_err "nvEncReconfigureEncoder failed"
    else ret tt.

(** [NVENCAPI_MAJOR_VERSION] and [NVENCAPI_MINOR_VERSION] are macros of
    the vendor header nvEncodeAPI.h. *)
Variable NVENCAPI_MAJOR_VERSION : Z.
Variable NVENCAPI_MINOR_VERSION : Z.

(** NvD3d11EncoderImpl::loadNvApi *)
Definition loadNvApi : Enc bool :=
  loaded <- ask Call_DynamicLibrary_load (on_load drv) ;;
  modify (set_nvapi loaded) ;;
  if negb loaded then ret false
  else
    found <- ask (Call_getFunc "NvEncodeAPIGetMaxSupportedVersion")
                 (on_getFunc drv "NvEncodeAPIGetMaxSupportedVersion") ;;
    if negb found
    then log_err "Load 'NvEncodeAPIGetMaxSupportedVersion' failed" ;; ret false
    else
      let sdk_version :=
        to_u32 (Z.lor (Z.shiftl NVENCAPI_MAJOR_VERSION 4) NVENCAPI_MINOR_VERSION) in
      r <- ask Call_NvEncodeAPIGetMaxSupportedVersion (on_GetMaxSupportedVersion drv) ;;
      let machine_version := to_u32 (snd r) in
      if negb (succeeded (fst r))
      then log_err "NvEncodeAPIGetMaxSupportedVersion failed" ;; ret false
      else if machine_version <? sdk_version
      then log_err "Nvidia GPU driver too old!" ;; ret false
      else
        found <- ask (Call_getFunc "NvEncodeAPICreateInstance")
                     (on_getFunc drv "NvEncodeAPICreateInstance") ;;
        if negb found
        then log_err "Load 'NvEncodeAPICreateInstance' failed" ;; ret false
        else
          modify (set_nvfuncs (mkFuncs false)) ;;
          r <- ask Call_NvEncodeAPICreateInstance (on_CreateInstance drv) ;;
          modify (set_nvfuncs (snd r)) ;;
          if negb (succeeded (fst r))
          then log_err "NvEncodeAPICreateInstance failed" ;; ret false
          else ret true.

Definition zero_QP : NV_ENC_QP := mkQP 0 0 0.
Definition zero_config : NV_ENC_CONFIG :=
  mkConfig 0 0
    (mkRc NV_ENC_PARAMS_RC_CONSTQP zero_QP 0 0 0 0 false false zero_QP zero_QP)
    (mkH264 0 0 0 0 0) (mkHevc 0 0 0 0 0 0).

(** NvD3d11EncoderImpl::generateEncodeParams.  The reference argument is
    the member [encode_config_], and [params.encodeConfig] points at it,
    so every store through the pointer lands in the member. *)
Definition generateEncodeParams (helper : VideoEncodeParamsHelper)
  : Enc NV_ENC_INITIALIZE_PARAMS :=
  modify (set_encode_config zero_config) ;;
  s <- get ;;
  let params :=
    mkInit (helper_codec helper) (helper_preset helper)
           (width_ s) (height_ s) (width_ s) (height_ s)
           (to_u32 (helper_fps helper)) 1 (async_ s) true false false
           (width_ s) (height_ s) cfg_member in
  preset <- ask (Call_nvEncGetEncodePresetConfig (nvencoder_ s) (encodeGUID params)
                   (presetGUID params))
                (on_GetEncodePresetConfig drv (encodeGUID params) (presetGUID params)) ;;
  let rc0 := rcParams preset in
  let rc1 :=
    mkRc (helper_rc helper)
         (if negb (GUID_eqb (presetGUID params) NV_ENC_PRESET_LOSSLESS_DEFAULT_GUID)
             && negb (GUID_eqb (presetGUID params) NV_ENC_PRESET_LOSSLESS_HP_GUID)
          then mkQP 28 31 25 else constQP rc0)
         (helper_bitrate helper)
         (helper_maxbitrate helper)
         (match vp_vbvbufsize helper with
          | Some v => to_u32 v
          | None => vbvBufferSize rc0
          end)
         (match vp_vbvinit helper with
          | Some v => to_u32 v
          | None => vbvInitialDelay rc0
          end)
         true true (helper_qmin helper) (helper_qmax helper) in
  let gop := NVENC_INFINITE_GOPLENGTH in
  let h264 :=
    if GUID_eqb (encodeGUID params) NV_ENC_CODEC_H264_GUID
    then mkH264 (if is_yuv444 (buffer_format_ s) then 3
                 else h264_chromaFormatIDC (h264Config preset))
                gop 0 3 1
    else h264Config preset in
  let hevc :=
    if GUID_eqb (encodeGUID params) NV_ENC_CODEC_H264_GUID then hevcConfig preset
    else if GUID_eqb (encodeGUID params) NV_ENC_CODEC_HEVC_GUID
    then mkHevc (if is_10bit (buffer_format_ s) then 2 else 0)
                (if is_yuv444 (buffer_format_ s) then 3
                 else hevc_chromaFormatIDC (hevcConfig preset))
                gop 0 3 1
    else hevcConfig preset in
  modify (set_encode_config (mkConfig gop 1 rc1 h264 hevc)) ;;
  ret params.

(** NvD3d11EncoderImpl::initBuffers *)
Definition initBuffers : Enc bool :=
  s <- get ;;
  r <- ask (Call_nvEncCreateBitstreamBuffer (nvencoder_ s)) (on_CreateBitstreamBuffer drv) ;;
  (if negb (succeeded (fst r))
   then log_err "nvEncCreateBitstreamBuffer failed"
   else ret tt) ;;
  modify (set_bitstream_output_buffer (snd r)) ;;
  ret true.

Definition is_H264 (c : VideoCodecType) : bool :=
  match c with H264 => true | _ => false end.

(** NvD3d11EncoderImpl::init *)
Definition init (params : VideoEncodeParamsHelper) : Enc bool :=
  modify (set_dims (to_u32 (vp_width params)) (to_u32 (vp_height params)) (vp_codec params)) ;;
  s <- get ;;
  if is_H264 (codec_type_ s) && is_10bit (buffer_format_ s)
  then log_err "Unsupported buffer format when using h264" ;; ret false
  else
    loaded <- loadNvApi ;;
    if negb loaded then ret false
    else
      s <- get ;;
      if negb (nvEncOpenEncodeSessionEx (nvfuncs_ s))
      then log_err "nvEncodeAPI not found" ;; ret false
      else
        r <- ask (Call_nvEncOpenEncodeSessionEx (d3d11_dev_ s)) (on_OpenEncodeSessionEx drv) ;;
        if negb (succeeded (fst r))
        then log_err "nvEncOpenEncodeSessionEx failed" ;; ret false
        else
          modify (set_nvencoder (snd r)) ;;
          p <- generateEncodeParams params ;;
          modify (set_init_params p) ;;
          s <- get ;;
          status <- ask (Call_nvEncInitializeEncoder (nvencoder_ s) (init_params_ s)
                           (encode_config_ s))
                        (on_InitializeEncoder drv) ;;
          if negb (succeeded status)
          then log_err "nvEncInitializeEncoder failed" ;; ret false
          else
            (if async_ s
             then
               ev <- ask Call_CreateEventA (on_CreateEventA drv) ;;
               modify (set_event ev) ;;
               ask (Call_nvEncRegisterAsyncEvent (nvencoder_ s) ev) (fun _ => tt)
             else ret tt) ;;
            ok <- initBuffers ;;
            if negb ok then ret false
            else log_info "NvD3d11Encoder initialized" ;; ret true.

(** NvD3d11EncoderImpl::initInputFrame *)
Definition initInputFrame (frame : Z) : Enc (option NV_ENC_MAP_INPUT_RESOURCE) :=
  s <- get ;;
  reg <- ask (Call_nvEncRegisterResource (nvencoder_ s) frame) (on_RegisterResource drv) ;;
  if negb (succeeded (fst reg))
  then log_err "nvEncRegisterResource failed" ;; ret None
  else
    mapped <- ask (Call_nvEncMapInputResource (nvencoder_ s) (snd reg))
                  (on_MapInputResource drv) ;;
    if negb (succeeded (fst mapped))
    then log_err "nvEncMapInputResource failed" ;; ret None
    else ret (Some (mkMapped (snd reg) (snd mapped))).

(** NvD3d11EncoderImpl::uninitInputFrame.  The second argument of
    [nvEncUnmapInputResource] is [&resource], the address of the map
    structure; the call records the structure at that address. *)
Definition uninitInputFrame (resource : NV_ENC_MAP_INPUT_RESOURCE) : Enc bool :=
  s <- get ;;
  status <- ask (Call_nvEncUnmapInputResource (nvencoder_ s) resource)
                (on_UnmapInputResource drv) ;;
  if negb (succeeded status)
  then log_err "nvEncUnmapInputResource failed" ;; ret false
  else if negb (registeredResource resource =? 0)
  then
    status <- ask (Call_nvEncUnregisterResource (nvencoder_ s) (registeredResource resource))
                  (on_UnregisterResource drv) ;;
    if negb (succeeded status)
    then log_err "nvEncUnregisterResource failed" ;; ret false
    else ret true
  else ret true.

Definition is_I_or_IDR (t : NV_ENC_PIC_TYPE) : bool :=
  match t with
  | NV_ENC_PIC_TYPE_I | NV_ENC_PIC_TYPE_IDR => true
  | _ => false
  end.

(** NvD3d11EncoderImpl::encodeOneFrame; [None] is the null pointer. *)
Definition encodeOneFrame (input_frame : Z) (request_iframe : bool)
  : Enc (option VideoFrame) :=
  mapped_resource <- initInputFrame input_frame ;;
  match mapped_resource with
  | None => ret None
  | Some res =>
      s <- get ;;
      let params :=
        mkPic (width_ s) (height_ s)
              (if request_iframe
               then Z.lor NV_ENC_PIC_FLAG_FORCEIDR NV_ENC_PIC_FLAG_OUTPUT_SPSPPS
               else 0)
              (mappedResource res) (bitstream_output_buffer_ s) (event_ s)
              (buffer_format_ s) in
      status <- ask (Call_nvEncEncodePicture (nvencoder_ s) params) (on_EncodePicture drv) ;;
      if negb (succeeded status)
      then log_err "nvEncEncodePicture failed" ;; ret None
      else
        signalled <-
          (if async_ s
           then ask (Call_WaitForSingleObject (event_ s)) (on_WaitForSingleObject drv)
           else ret true) ;;
        if negb signalled
        then log_err "Wait encode event timeout" ;; ret None
        else
          lbs <- ask (Call_nvEncLockBitstream (nvencoder_ s) (bitstream_output_buffer_ s))
                     (on_LockBitstream drv) ;;
          if negb (succeeded (fst lbs))
          then log_err "nvEncLockBitstream failed" ;; ret None
          else
            status <- ask (Call_nvEncUnlockBitstream (nvencoder_ s)
                             (bitstream_output_buffer_ s))
                          (on_UnlockBitstream drv) ;;
            if negb (succeeded status)
            then log_err "nvEncUnlockBitstream failed" ;; ret None
            else
              released <- uninitInputFrame res ;;
              if negb released then ret None
              else
                picType <- ask (Call_nvEncGetEncodeStats (nvencoder_ s)
                                  (outputBitstream params))
                               (on_GetEncodeStats drv) ;;
                ret (Some (mkFrame (snd lbs) (is_I_or_IDR picType)))
  end.

End WithDriver.

(** ** NvD3d11Encoder, the public class *)

(** Modelled from the spec: [VideoEncoder::requestKeyframe] and
    [VideoEncoder::needKeyframe] belong to the base class (video_encoder.cpp,
    outside the files covered here).  [requestKeyframe] "forces the next frame to
    be a keyframe": it raises a flag that [needKeyframe] reads and lowers. *)
Record NvD3d11Encoder := mkEncoder {
  impl_ : NvD3d11EncoderImpl;
  request_keyframe_ : bool
}.

(** Modelled from the spec: [VideoEncoder::requestKeyframe] (base class,
    outside the files covered here) raises the keyframe request. *)
Definition requestKeyframe (e : NvD3d11Encoder) : NvD3d11Encoder :=
  mkEncoder (impl_ e) true.

(** Modelled from the spec: [VideoEncoder::needKeyframe] (base class, outside
    the files covered here) reads the request and lowers it, so that only the
    next frame is forced. *)
Definition needKeyframe (e : NvD3d11Encoder) : bool * NvD3d11Encoder :=
  (request_keyframe_ e, mkEncoder (impl_ e) false).

(** NvD3d11Encoder::encodeFrame *)
Definition encodeFrame (drv : NvDriver) (input_frame : Z) (e : NvD3d11Encoder) (h : History)
  : option VideoFrame * NvD3d11Encoder * History :=
  let (need, e1) := needKeyframe e in
  let r := encodeOneFrame drv input_frame need (impl_ e1) h in
  (result r, mkEncoder (final r) (request_keyframe_ e1), trace r).

End NvEnc.

(* ===================================================================== *)
(** * service_manager.cpp *)
(* ===================================================================== *)

Module ServiceMgr.

(** [ltproto::ErrorCode]: only [Success] is named by the source; every
    other enumerator is kept with its number. *)
Inductive ErrorCode := Success | ErrorCode_other (code : Z).

Inductive ServiceStatus := Up | Down.

(** What arrives on the pipe, already parsed: the message type selects
    the arm of the switch in [onPipeMessage]. *)
Inductive PipeMessage :=
| kConfirmConnection (device_id : Z)
| kAcceptedConnection (body : list Z)
| kDisconnectedConnection (device_id : Z)
| kConnectionStatus (body : list Z)
| kServiceStatus (status : ErrorCode)
| kUnknown (type : Z).

(** The callbacks handed to the constructor by the GUI. *)
Inductive UiCallback :=
| on_confirm_connection_ (device_id : Z)
| on_accepted_connection_ (body : list Z)
| on_disconnected_connection_ (device_id : Z)
| on_connection_status_ (body : list Z)
| on_service_status_ (s : ServiceStatus).

Record ServiceManager := mkManager { fd_ : Z }.

Definition is_Success (c : ErrorCode) : bool :=
  match c with Success => true | ErrorCode_other _ => false end.

(** ServiceManager::onPipeAccepted *)
Definition onPipeAccepted (fd : Z) (m : ServiceManager) : ServiceManager * list UiCallback :=
  (mkManager fd, []).

(** ServiceManager::onPipeDisconnected *)
Definition onPipeDisconnected (fd : Z) (m : ServiceManager)
  : ServiceManager * list UiCallback :=
  (mkManager (2 ^ 32 - 1), [on_service_status_ Down]).

(** ServiceManager::onServiceStatus *)
Definition onServiceStatus (status : ErrorCode) (m : ServiceManager)
  : ServiceManager * list UiCallback :=
  if is_Success status
  then (m, [on_service_status_ Up])
  else (m, [on_service_status_ Up]).

(** ServiceManager::onPipeMessage *)
Definition onPipeMessage (fd : Z) (msg : PipeMessage) (m : ServiceManager)
  : ServiceManager * list UiCallback :=
  match msg with
  | kConfirmConnection device_id => (m, [on_confirm_connection_ device_id])
  | kAcceptedConnection body => (m, [on_accepted_connection_ body])
  | kDisconnectedConnection device_id => (m, [on_disconnected_connection_ device_id])
  | kConnectionStatus body => (m, [on_connection_status_ body])
  | kServiceStatus status => onServiceStatus status m
  | kUnknown _ => (m, [])
  end.

End ServiceMgr.

(* ===================================================================== *)
(** * System display query (ltlib system source, Windows branch) *)
(* ===================================================================== *)

Module System.

Record DEVMODE := mkDevmode {
  dmPelsWidth : Z;
  dmPelsHeight : Z;
  dmDisplayFrequency : Z
}.

(** Answers of the Win32 calls the query makes.  [EnumDisplaySettings] is
    [None] when the call returns FALSE. *)
Record Win32Display := mkDisplay {
  EnumDisplaySettings : option DEVMODE;
  GetDeviceCaps_DESKTOPHORZRES : Z;
  GetDeviceCaps_DESKTOPVERTRES : Z
}.

Record DisplayOutputDesc := mkDesc {
  width : Z;
  height : Z;
  frequency : Z
}.

Definition getScreenWidth (env : Win32Display) : Z :=
  to_i32 (GetDeviceCaps_DESKTOPHORZRES env).

Definition getScreenHeight (env : Win32Display) : Z :=
  to_i32 (GetDeviceCaps_DESKTOPVERTRES env).

(** getDisplayOutputDesc; the [DEVMODE] members are DWORDs. *)
Definition getDisplayOutputDesc (env : Win32Display) : DisplayOutputDesc :=
  match EnumDisplaySettings env with
  | Some dm =>
      mkDesc (to_u32 (dmPelsWidth dm)) (to_u32 (dmPelsHeight dm))
             (if to_u32 (dmDisplayFrequency dm) =? 0 then 60
              else to_u32 (dmDisplayFrequency dm))
  | None =>
      mkDesc (to_u32 (getScreenWidth env)) (to_u32 (getScreenHeight env)) 60
  end.

End System.

(* ===================================================================== *)
(** * win_send_input.cpp *)
(* ===================================================================== *)

Module SendInput.

Local Open Scope Z_scope.

(** ** winuser.h constants *)

Definition VK_BACK : Z := 8.
Definition VK_TAB : Z := 9.
Definition VK_RETURN : Z := 13.
Definition VK_PAUSE : Z := 19.
Definition VK_CAPITAL : Z := 20.
Definition VK_ESCAPE : Z := 27.
Definition VK_SPACE : Z := 32.
Definition VK_PRIOR : Z := 33.
Definition VK_NEXT : Z := 34.
Definition VK_END : Z := 35.
Definition VK_HOME : Z := 36.
Definition VK_LEFT : Z := 37.
Definition VK_UP : Z := 38.
Definition VK_RIGHT : Z := 39.
Definition VK_DOWN : Z := 40.
Definition VK_SNAPSHOT : Z := 44.
Definition VK_INSERT : Z := 45.
Definition VK_DELETE : Z := 46.
Definition VK_LWIN : Z := 91.
Definition VK_RWIN : Z := 92.
Definition VK_APPS : Z := 93.
Definition VK_NUMPAD0 : Z := 96.
Definition VK_NUMPAD1 : Z := 97.
Definition VK_MULTIPLY : Z := 106.
Definition VK_ADD : Z := 107.
Definition VK_SUBTRACT : Z := 109.
Definition VK_DECIMAL : Z := 110.
Definition VK_DIVIDE : Z := 111.
Definition VK_F1 : Z := 112.
Definition VK_NUMLOCK : Z := 144.
Definition VK_SCROLL : Z := 145.
Definition VK_LSHIFT : Z := 160.
Definition VK_RSHIFT : Z := 161.
Definition VK_LCONTROL : Z := 162.
Definition VK_RCONTROL : Z := 163.
Definition VK_LMENU : Z := 164.
Definition VK_RMENU : Z := 165.
Definition VK_OEM_1 : Z := 186.
Definition VK_OEM_PLUS : Z := 187.
Definition VK_OEM_COMMA : Z := 188.
Definition VK_OEM_MINUS : Z := 189.
Definition VK_OEM_PERIOD : Z := 190.
Definition VK_OEM_2 : Z := 191.
Definition VK_OEM_3 : Z := 192.
Definition VK_OEM_4 : Z := 219.
Definition VK_OEM_5 : Z := 220.
Definition VK_OEM_6 : Z := 221.
Definition VK_OEM_7 : Z := 222.

Definition KEYEVENTF_EXTENDEDKEY : Z := 1.
Definition KEYEVENTF_KEYUP : Z := 2.
Definition KEYEVENTF_SCANCODE : Z := 8.

Definition MOUSEEVENTF_MOVE : Z := 1.
Definition MOUSEEVENTF_LEFTDOWN : Z := 2.
Definition MOUSEEVENTF_LEFTUP : Z := 4.
Definition MOUSEEVENTF_RIGHTDOWN : Z := 8.
Definition MOUSEEVENTF_RIGHTUP : Z := 16.
Definition MOUSEEVENTF_MIDDLEDOWN : Z := 32.
Definition MOUSEEVENTF_MIDDLEUP : Z := 64.
Definition MOUSEEVENTF_XDOWN : Z := 128.
Definition MOUSEEVENTF_XUP : Z := 256.
Definition MOUSEEVENTF_WHEEL : Z := 2048.
Definition MOUSEEVENTF_ABSOLUTE : Z := 32768.
Definition XBUTTON1 : Z := 1.
Definition XBUTTON2 : Z := 2.

(** ** lt::Scancode

    The enumeration is declared in scancode.h, outside the files covered
    here; the translation takes the numbering as a parameter. *)
Record ScancodeEnum := mkScancodes {
  SCANCODE_A : Z; SCANCODE_Z : Z;
  SCANCODE_1 : Z; SCANCODE_0 : Z;
  SCANCODE_F1 : Z; SCANCODE_F12 : Z;
  SCANCODE_KP_1 : Z; SCANCODE_KP_9 : Z;
  SCANCODE_KP_PERIOD : Z; SCANCODE_RETURN : Z; SCANCODE_ESCAPE : Z;
  SCANCODE_BACKSPACE : Z; SCANCODE_TAB : Z; SCANCODE_SPACE : Z;
  SCANCODE_MINUS : Z; SCANCODE_EQUALS : Z; SCANCODE_LEFTBRACKET : Z;
  SCANCODE_RIGHTBRACKET : Z; SCANCODE_BACKSLASH : Z; SCANCODE_NONUSHASH : Z;
  SCANCODE_SEMICOLON : Z; SCANCODE_APOSTROPHE : Z; SCANCODE_GRAVE : Z;
  SCANCODE_COMMA : Z; SCANCODE_PERIOD : Z; SCANCODE_SLASH : Z;
  SCANCODE_CAPSLOCK : Z; SCANCODE_PRINTSCREEN : Z; SCANCODE_SCROLLLOCK : Z;
  SCANCODE_PAUSE : Z; SCANCODE_INSERT : Z; SCANCODE_HOME : Z;
  SCANCODE_PAGEUP : Z; SCANCODE_DELETE : Z; SCANCODE_END : Z;
  SCANCODE_PAGEDOWN : Z; SCANCODE_RIGHT : Z; SCANCODE_LEFT : Z;
  SCANCODE_DOWN : Z; SCANCODE_UP : Z; SCANCODE_NUMLOCKCLEAR : Z;
  SCANCODE_KP_DIVIDE : Z; SCANCODE_KP_MULTIPLY : Z; SCANCODE_KP_MINUS : Z;
  SCANCODE_KP_PLUS : Z; SCANCODE_KP_ENTER : Z; SCANCODE_KP_0 : Z;
  SCANCODE_KP_DECIMAL : Z; SCANCODE_LCTRL : Z; SCANCODE_LSHIFT : Z;
  SCANCODE_LALT : Z; SCANCODE_LGUI : Z; SCANCODE_RCTRL : Z;
  SCANCODE_RSHIFT : Z; SCANCODE_RALT : Z; SCANCODE_RGUI : Z;
  SCANCODE_APPLICATION : Z
}.

(** The USB HID usage numbering (the one SDL uses for its scancodes),
    for running the translation on concrete keys. *)
Definition usb_hid_scancodes : ScancodeEnum :=
  mkScancodes 4 29 30 39 58 69 89 97
    99 40 41 42 43 44 45 46 47 48 49 50 51 52 53 54 55 56 57 70 71 72
    73 74 75 76 77 78 79 80 81 82 83 84 85 86 87 88 98
    220 224 225 226 227 228 229 230 231 101.

(** The tuple [{win_key, use_scancode, extented, valid}]. *)
Record WinKey := mkKey {
  win_key : Z;
  use_scancode : bool;
  extented : bool;
  valid : bool
}.

Section Translation.

Variable E : ScancodeEnum.

(** The [case] labels of the [switch], in source order, with the tuple
    returned under each. *)
Definition switch_cases : list (Z * WinKey) :=
  [ (SCANCODE_KP_PERIOD E, mkKey VK_DECIMAL true false true);
    (SCANCODE_RETURN E, mkKey VK_RETURN true false true);
    (SCANCODE_ESCAPE E, mkKey VK_ESCAPE true false true);
    (SCANCODE_BACKSPACE E, mkKey VK_BACK true false true);
    (SCANCODE_TAB E, mkKey VK_TAB true false true);
    (SCANCODE_SPACE E, mkKey VK_SPACE true false true);
    (SCANCODE_MINUS E, mkKey VK_OEM_MINUS true false true);
    (SCANCODE_EQUALS E, mkKey VK_OEM_PLUS true false true);
    (SCANCODE_LEFTBRACKET E, mkKey VK_OEM_4 true false true);
    (SCANCODE_RIGHTBRACKET E, mkKey VK_OEM_6 true false true);
    (SCANCODE_BACKSLASH E, mkKey VK_OEM_5 true false true);
    (SCANCODE_NONUSHASH E, mkKey VK_OEM_5 true false true);
    (SCANCODE_SEMICOLON E, mkKey VK_OEM_1 true false true);
    (SCANCODE_APOSTROPHE E, mkKey VK_OEM_7 true false true);
    (SCANCODE_GRAVE E, mkKey VK_OEM_3 true false true);
    (SCANCODE_COMMA E, mkKey VK_OEM_COMMA true false true);
    (SCANCODE_PERIOD E, mkKey VK_OEM_PERIOD true false true);
    (SCANCODE_SLASH E, mkKey VK_OEM_2 true false true);
    (SCANCODE_CAPSLOCK E, mkKey VK_CAPITAL true false true);
    (SCANCODE_PRINTSCREEN E, mkKey VK_SNAPSHOT true false true);
    (SCANCODE_SCROLLLOCK E, mkKey VK_SCROLL true false true);
    (SCANCODE_PAUSE E, mkKey VK_PAUSE false false true);
    (SCANCODE_INSERT E, mkKey VK_INSERT true true true);
    (SCANCODE_HOME E, mkKey VK_HOME true true true);
    (SCANCODE_PAGEUP E, mkKey VK_PRIOR true true true);
    (SCANCODE_DELETE E, mkKey VK_DELETE true true true);
    (SCANCODE_END E, mkKey VK_END true true true);
    (SCANCODE_PAGEDOWN E, mkKey VK_NEXT true true true);
    (SCANCODE_RIGHT E, mkKey VK_RIGHT true true true);
    (SCANCODE_LEFT E, mkKey VK_LEFT true true true);
    (SCANCODE_DOWN E, mkKey VK_DOWN true true true);
    (SCANCODE_UP E, mkKey VK_UP true true true);
    (SCANCODE_NUMLOCKCLEAR E, mkKey VK_NUMLOCK true false true);
    (SCANCODE_KP_DIVIDE E, mkKey VK_DIVIDE true true true);
    (SCANCODE_KP_MULTIPLY E, mkKey VK_MULTIPLY true false true);
    (SCANCODE_KP_MINUS E, mkKey VK_SUBTRACT true false true);
    (SCANCODE_KP_PLUS E, mkKey VK_ADD true false true);
    (SCANCODE_KP_ENTER E, mkKey VK_RETURN true true true);
    (SCANCODE_KP_0 E, mkKey VK_NUMPAD0 true false true);
    (SCANCODE_KP_DECIMAL E, mkKey VK_DECIMAL true false true);
    (SCANCODE_LCTRL E, mkKey VK_LCONTROL true false true);
    (SCANCODE_LSHIFT E, mkKey VK_LSHIFT true false true);
    (SCANCODE_LALT E, mkKey VK_LMENU true false true);
    (SCANCODE_LGUI E, mkKey VK_LWIN true true true);
    (SCANCODE_RCTRL E, mkKey VK_RCONTROL true true true);
    (SCANCODE_RSHIFT E, mkKey VK_RSHIFT true false true);
    (SCANCODE_RALT E, mkKey VK_RMENU true true true);
    (SCANCODE_RGUI E, mkKey VK_RWIN true true true);
    (SCANCODE_APPLICATION E, mkKey VK_APPS true true true) ].

(** A [switch] jumps to the label equal to the scrutinee. *)
Fixpoint switch_on (scancode : Z) (cases : list (Z * WinKey)) : option WinKey :=
  match cases with
  | [] => None
  | (label, k) :: rest => if scancode =? label then Some k else switch_on scancode rest
  end.

(** scancode_to_winkey; ['A'] is 65, ['1'] is 49, ['0'] is 48. *)
Definition scancode_to_winkey (scancode : Z) : WinKey :=
  if (SCANCODE_A E <=? scancode) && (scancode <=? SCANCODE_Z E)
  then mkKey (to_u16 (65 + scancode - SCANCODE_A E)) true false true
  else if (SCANCODE_1 E <=? scancode) && (scancode <? SCANCODE_0 E)
  then mkKey (to_u16 (49 + scancode - SCANCODE_1 E)) true false true
  else if scancode =? SCANCODE_0 E
  then mkKey 48 true false true
  else if (SCANCODE_F1 E <=? scancode) && (scancode <=? SCANCODE_F12 E)
  then mkKey (to_u16 (VK_F1 + scancode - SCANCODE_F1 E)) true false true
  else if (SCANCODE_KP_1 E <=? scancode) && (scancode <=? SCANCODE_KP_9 E)
  then mkKey (to_u16 (VK_NUMPAD1 + scancode - SCANCODE_KP_1 E)) true false true
  else
    match switch_on scancode switch_cases with
    | Some k => k
    | None => mkKey 0 false false false
    end.

(** The scancodes the translation has an entry for: the five ranges
    tested first, then the labels of the [switch]. *)
Definition in_ranges (scancode : Z) : bool :=
  ((SCANCODE_A E <=? scancode) && (scancode <=? SCANCODE_Z E))
  || ((SCANCODE_1 E <=? scancode) && (scancode <? SCANCODE_0 E))
  || (scancode =? SCANCODE_0 E)
  || ((SCANCODE_F1 E <=? scancode) && (scancode <=? SCANCODE_F12 E))
  || ((SCANCODE_KP_1 E <=? scancode) && (scancode <=? SCANCODE_KP_9 E)).

Definition has_entry (scancode : Z) : bool :=
  in_ranges scancode || existsb (fun c => scancode =? fst c) switch_cases.

End Translation.

(** ** Messages and synthetic input *)

(** [ltproto::peer2peer::KeyboardEvent] *)
Record KeyboardEvent := mkKeyboard { key : Z; down : bool }.

Inductive KeyFlag :=
| LeftDown | LeftUp | RightDown | RightUp | MidDown | MidUp
| X1Down | X1Up | X2Down | X2Up | KeyFlag_other (raw : Z).

(** [ltproto::peer2peer::MouseEvent]: every field is optional ([has_*]);
    reading an absent field yields its default, zero. *)
Record MouseEvent := mkMouse {
  key_falg : option KeyFlag;
  x : option float32;
  y : option float32;
  delta_x : option Z;
  delta_y : option Z;
  delta_z : option Z
}.

Definition get_float (f : option float32) : float32 :=
  match f with Some v => v | None => S754_zero false end.

Definition get_int32 (f : option Z) : Z :=
  match f with Some v => to_i32 v | None => 0 end.

Definition has {A : Type} (f : option A) : bool :=
  match f with Some _ => true | None => false end.

Record KEYBDINPUT := mkKi { wVk : Z; wScan : Z; ki_dwFlags : Z; ki_time : Z }.
Record MOUSEINPUT := mkMi { dx : Z; dy : Z; mouseData : Z; mi_dwFlags : Z; mi_time : Z }.

Inductive INPUT :=
| INPUT_KEYBOARD (ki : KEYBDINPUT)
| INPUT_MOUSE (mi : MOUSEINPUT).

Section Replay.

Variable E : ScancodeEnum.

(** [MapVirtualKeyW(key, MAPVK_VK_TO_VSC_EX)], answered by the system. *)
Variable MapVirtualKeyW : Z -> Z.

(** Win32SendInput::onKeyboardEvent: the list of [INPUT] structures passed
    to [SendInput]; the empty list when [SendInput] is not called. *)
Definition onKeyboardEvent (keyboard : KeyboardEvent) : list INPUT :=
  let k := scancode_to_winkey E (key keyboard) in
  if negb (valid k) then []
  else
    let wScan0 := if use_scancode k then to_u16 (MapVirtualKeyW (win_key k)) else 0 in
    let flags0 := if use_scancode k then KEYEVENTF_SCANCODE else 0 in
    let flags1 := Z.lor flags0 (if down keyboard then 0 else KEYEVENTF_KEYUP) in
    let flags2 := Z.lor flags1 (if extented k then KEYEVENTF_EXTENDEDKEY else 0) in
    [INPUT_KEYBOARD (mkKi (win_key k) wScan0 flags2 0)].

(** The [switch] on [key_falg()]: new [mouseData] and the flag or-ed in. *)
Definition button_flags (f : KeyFlag) (mi : MOUSEINPUT) : MOUSEINPUT :=
  let or_flag fl := mkMi (dx mi) (dy mi) (mouseData mi) (Z.lor (mi_dwFlags mi) fl) (mi_time mi) in
  let x_flag btn fl := mkMi (dx mi) (dy mi) btn (Z.lor (mi_dwFlags mi) fl) (mi_time mi) in
  match f with
  | LeftDown => or_flag MOUSEEVENTF_LEFTDOWN
  | LeftUp => or_flag MOUSEEVENTF_LEFTUP
  | RightDown => or_flag MOUSEEVENTF_RIGHTDOWN
  | RightUp => or_flag MOUSEEVENTF_RIGHTUP
  | MidDown => or_flag MOUSEEVENTF_MIDDLEDOWN
  | MidUp => or_flag MOUSEEVENTF_MIDDLEUP
  | X1Down => x_flag XBUTTON1 MOUSEEVENTF_XDOWN
  | X1Up => x_flag XBUTTON1 MOUSEEVENTF_XUP
  | X2Down => x_flag XBUTTON2 MOUSEEVENTF_XDOWN
  | X2Up => x_flag XBUTTON2 MOUSEEVENTF_XUP
  | KeyFlag_other _ => mi
  end.

(** Win32SendInput::onMouseEvent.  [isAbsoluteMouse()] is a member of the
    base class; its value at the time of the call is the first argument. *)
Definition onMouseEvent (isAbsoluteMouse : bool) (mouse : MouseEvent) : list INPUT :=
  let mi0 := mkMi 0 0 0 0 0 in
  let mi1 :=
    match key_falg mouse with
    | Some f => button_flags f mi0
    | None => mi0
    end in
  let mi2 :=
    if isAbsoluteMouse
    then
      if has (x mouse) || has (y mouse)
      then mkMi (f32_to_i32 (f32_mul f32_65535 (get_float (x mouse))))
                (f32_to_i32 (f32_mul f32_65535 (get_float (y mouse))))
                (mouseData mi1)
                (Z.lor (mi_dwFlags mi1) (Z.lor MOUSEEVENTF_ABSOLUTE MOUSEEVENTF_MOVE))
                (mi_time mi1)
      else mi1
    else
      if has (delta_x mouse) || has (delta_y mouse)
      then mkMi (get_int32 (delta_x mouse)) (get_int32 (delta_y mouse))
                (mouseData mi1)
                (Z.lor (mi_dwFlags mi1) MOUSEEVENTF_MOVE)
                (mi_time mi1)
      else mi1 in
  let mi3 :=
    if has (delta_z mouse)
    then mkMi (dx mi2) (dy mi2) (to_u32 (get_int32 (delta_z mouse))) MOUSEEVENTF_WHEEL
              (mi_time mi2)
    else mi2 in
  [INPUT_MOUSE (mkMi (dx mi3) (dy mi3) (mouseData mi3) (mi_dwFlags mi3) 0)].

End Replay.

End SendInput.

(* ===================================================================== *)
(** * Requests as the specification describes them *)
(* ===================================================================== *)

Module Pipeline.

Import NvEnc.
Local Open Scope enc_scope.

(** The stream parameters a reconfiguration is said to act on: resolution,
    refresh rate, target bitrate and the QP bounds. *)
Record StreamParams := mkStream {
  sp_width : Z;
  sp_height : Z;
  sp_fps : Z;
  sp_bitrate : Z;
  sp_qmin : NV_ENC_QP;
  sp_qmax : NV_ENC_QP
}.

(** The same parameters as the encoder object holds them. *)
Definition stream_params_of (s : NvD3d11EncoderImpl) : StreamParams :=
  mkStream (width_ s) (height_ s)
           (frameRateNum (init_params_ s))
           (averageBitRate (rcParams (encode_config_ s)))
           (minQP (rcParams (encode_config_ s)))
           (maxQP (rcParams (encode_config_ s))).

(** [reconfigure(params')] in the words of the specification: bitrate, fps
    and QP bounds are updated; the call fails exactly when the resolution
    changed.  The boolean is the reported success. *)
Definition spec_reconfigure (cur req : StreamParams) : bool * StreamParams :=
  if (sp_width req =? sp_width cur) && (sp_height req =? sp_height cur)
  then (true, mkStream (sp_width cur) (sp_height cur) (sp_fps req) (sp_bitrate req)
                       (sp_qmin req) (sp_qmax req))
  else (false, cur).

(** Consecutive calls of [reconfigure], one per request, in order. *)
Fixpoint reconfigure_each (drv : NvDriver) (requests : list ReconfigureParams) : Enc unit :=
  match requests with
  | [] => ret tt
  | p :: rest => reconfigure drv p ;; reconfigure_each drv rest
  end.

(** The value the latest request carrying the field asks for. *)
Fixpoint latest {A : Type} (field : ReconfigureParams -> option A)
         (requests : list ReconfigureParams) (current : A) : A :=
  match requests with
  | [] => current
  | p :: rest =>
      latest field rest (match field p with Some v => v | None => current end)
  end.

(** Modelled from the spec: the Reconfigure control message with the
    monotonic version counter of the data model (section 3).  The message
    declaration is outside the files covered here. *)
Record Reconfigure := mkMsg {
  version : Z;
  request : ReconfigureParams
}.

(** Modelled from the spec: the capture pipeline as far as
    reconfiguration goes (its implementation is outside the files covered
    here): the encoder it owns, the calls made to the driver so far and
    the version of the last applied reconfiguration, if any. *)
Record CapturePipeline := mkPipeline {
  encoder_ : NvD3d11EncoderImpl;
  driver_calls_ : History;
  last_applied_ : option Z
}.

(** Modelled from the spec: a reconfiguration is stale when its version
    counter is lower than the version of the last applied one. *)
Definition is_stale (last : option Z) (m : Reconfigure) : bool :=
  match last with
  | Some v => version m <? v
  | None => false
  end.

(** Modelled from the spec: the pipeline's handler of a Reconfigure message
    (outside the files covered here).  "Stale reconfigurations arriving
    out of order are ignored"; any other message is handed to the
    encoder's [reconfigure] and its version becomes the last applied. *)
Definition onReconfigure (drv : NvDriver) (m : Reconfigure) (p : CapturePipeline)
  : CapturePipeline :=
  if is_stale (last_applied_ p) m then p
  else
    let r := reconfigure drv (request m) (encoder_ p) (driver_calls_ p) in
    mkPipeline (final r) (trace r) (Some (version m)).

(** Modelled from the spec: the control path delivers the messages in
    order, one handler call each. *)
Fixpoint onReconfigureAll (drv : NvDriver) (msgs : list Reconfigure) (p : CapturePipeline)
  : CapturePipeline :=
  match msgs with
  | [] => p
  | m :: rest => onReconfigureAll drv rest (onReconfigure drv m p)
  end.

(** The messages of a sequence that are not stale on arrival: a message
    is kept unless its version is lower than the last kept one. *)
Fixpoint drop_stale (last : option Z) (msgs : list Reconfigure) : list Reconfigure :=
  match msgs with
  | [] => []
  | m :: rest =>
      match last with
      | Some v =>
          if version m <? v then drop_stale last rest
          else m :: drop_stale (Some (version m)) rest
      | None => m :: drop_stale (Some (version m)) rest
      end
  end.

(** The version a pipeline remembers once the messages [applied] have
    been applied on top of [last]. *)
Definition last_version (last : option Z) (applied : list Reconfigure) : option Z :=
  fold_left (fun _ m => Some (version m)) applied last.

(** Each element is at most the next. *)
Fixpoint nondecreasing (l : list Z) : Prop :=
  match l with
  | a :: (b :: _) as rest => a <= b /\ nondecreasing rest
  | _ => True
  end.

(** The stores [reconfigure] makes, as a function of the request. *)
Definition stored_bitrate (p : ReconfigureParams) (s : NvD3d11EncoderImpl) : Z :=
  match bitrate_bps p with
  | Some v => to_u32 v
  | None => averageBitRate (rcParams (encode_config_ s))
  end.

Definition stored_maxbitrate (p : ReconfigureParams) (s : NvD3d11EncoderImpl) : Z :=
  match bitrate_bps p with
  | Some v => f32_to_u32 (f32_mul (f32_of_int (to_u32 v)) f32_1_05)
  | None => maxBitRate (rcParams (encode_config_ s))
  end.

Definition stored_fps (p : ReconfigureParams) (s : NvD3d11EncoderImpl) : Z :=
  match fps p with
  | Some v => to_u32 v
  | None => frameRateNum (init_params_ s)
  end.

Definition has_value {A : Type} (o : option A) : bool :=
  match o with Some _ => true | None => false end.

(** The calls one [reconfigure] adds to the history [h], given the object
    [s'] it leaves behind. *)
Definition reconfigure_calls (drv : NvDriver) (p : ReconfigureParams)
           (s' : NvD3d11EncoderImpl) (h : History) : list NvCall :=
  if has_value (bitrate_bps p) || has_value (fps p)
  then Call_nvEncReconfigureEncoder (nvencoder_ s') (init_params_ s') (encode_config_ s')
       :: (if succeeded (on_ReconfigureEncoder drv h) then []
           else [LOG_ERR "nvEncReconfigureEncoder failed"])
  else [].

(** The picture parameters [encodeOneFrame] builds for the frame [input]
    once it has been registered and mapped. *)
Definition submitted_picture (drv : NvDriver) (input : Z) (request_iframe : bool)
           (s : NvD3d11EncoderImpl) (h : History) : NV_ENC_PIC_PARAMS :=
  mkPic (width_ s) (height_ s)
        (if request_iframe
         then Z.lor NV_ENC_PIC_FLAG_FORCEIDR NV_ENC_PIC_FLAG_OUTPUT_SPSPPS
         else 0)
        (snd (on_MapInputResource drv
                (h ++ [Call_nvEncRegisterResource (nvencoder_ s) input])))
        (bitstream_output_buffer_ s) (event_ s) (buffer_format_ s).

(** The frame was registered and mapped by the driver. *)
Definition input_mapped (drv : NvDriver) (input : Z) (s : NvD3d11EncoderImpl)
           (h : History) : bool :=
  succeeded (fst (on_RegisterResource drv h))
  && succeeded (fst (on_MapInputResource drv
                       (h ++ [Call_nvEncRegisterResource (nvencoder_ s) input]))).

(** The map structure [initInputFrame] hands back for the frame [input]:
    the handle the driver registered it under and the handle it mapped it
    to. *)
Definition mapped_input (drv : NvDriver) (input : Z) (s : NvD3d11EncoderImpl)
           (h : History) : NV_ENC_MAP_INPUT_RESOURCE :=
  mkMapped (snd (on_RegisterResource drv h))
           (snd (on_MapInputResource drv
                   (h ++ [Call_nvEncRegisterResource (nvencoder_ s) input]))).



End Pipeline.

(* ===================================================================== *)
(** * Session coordinator *)
(* ===================================================================== *)

Module Session.

(** Modelled from the spec: the session state machine of section 4.1 and
    the cancellation rule of section 5.  client.cpp and the worker sources
    that implement it are outside the files covered here (only the declaration
    client.h is).  Each state change reports the state entered to the UI
    layer; [stop] releases the pipeline and the transport channel and
    discards pending sends; [Closed] absorbs every later event. *)
Inductive SessionState :=
| Idle | SignalingConnecting | SignalingConnected | AwaitingJoinAck | RoomJoined
| TransportConnecting | Streaming | Reconnecting | Closed | Failed.

Inductive Event :=
| ev_start (valid_ids : bool)
| ev_signaling_connected
| ev_join_sent
| ev_join_ack
| ev_transport_selected
| ev_transport_failed (alternate_left : bool)
| ev_start_transmission_ack
| ev_keepalive_timeout
| ev_transport_reconnected
| ev_retries_exhausted
| ev_fatal_error
| ev_send_control (message : Z)
| ev_stop.

Record Session := mkSession {
  state : SessionState;
  pipeline : bool;
  transport : bool;
  pending_sends : list Z
}.

Definition is_Closed (st : SessionState) : bool :=
  match st with Closed => true | _ => false end.

(** Enter a state; the callback list holds the status reported. *)
Definition enter (st : SessionState) (s : Session) : Session * list SessionState :=
  (mkSession st (pipeline s) (transport s) (pending_sends s), [st]).

(** Modelled from the spec: [stop()] of section 4.1 (its implementation is
    outside the files covered here): always to [Closed], pipeline and transport
    released, pending sends discarded; the transition is reported unless
    the session was closed already. *)
Definition stop (s : Session) : Session * list SessionState :=
  (mkSession Closed false false [],
   if is_Closed (state s) then [] else [Closed]).

(** Modelled from the spec: the transitions of section 4.1 (the
    coordinator's implementation is outside the files covered here). *)
Definition step (s : Session) (e : Event) : Session * list SessionState :=
  match e with
  | ev_stop => stop s
  | _ =>
    if is_Closed (state s) then (s, [])
    else
      match e, state s with
      | ev_start true, Idle => enter SignalingConnecting s
      | ev_start false, Idle => enter Failed s
      | ev_signaling_connected, SignalingConnecting => enter SignalingConnected s
      | ev_join_sent, SignalingConnected => enter AwaitingJoinAck s
      | ev_join_ack, AwaitingJoinAck => enter RoomJoined s
      | ev_transport_selected, RoomJoined =>
          enter TransportConnecting
                (mkSession (state s) (pipeline s) true (pending_sends s))
      | ev_transport_failed true, TransportConnecting => (s, [])
      | ev_transport_failed false, TransportConnecting => enter Failed s
      | ev_start_transmission_ack, TransportConnecting =>
          enter Streaming (mkSession (state s) true (transport s) (pending_sends s))
      | ev_keepalive_timeout, Streaming => enter Reconnecting s
      | ev_transport_reconnected, Reconnecting => enter Streaming s
      | ev_retries_exhausted, Reconnecting => enter Failed s
      | ev_fatal_error, Failed => (s, [])
      | ev_fatal_error, _ => enter Failed s
      | ev_send_control m, _ =>
          (mkSession (state s) (pipeline s) (transport s) (pending_sends s ++ [m]), [])
      | _, _ => (s, [])
      end
  end.

(** Run a sequence of events, collecting the callbacks in order. *)
Fixpoint run (s : Session) (events : list Event) : Session * list SessionState :=
  match events with
  | [] => (s, [])
  | e :: rest =>
      let r := step s e in
      let r' := run (fst r) rest in
      (fst r', snd r ++ snd r')
  end.

End Session.

(* ===================================================================== *)
(** * nvidia_encoder.cpp: teardown *)
(* ===================================================================== *)

Module NvEncRelease.

Import NvEnc.

(** The calls of [releaseResources]; none of their results is read. *)
Inductive ReleaseCall :=
| Call_nvEncUnregisterAsyncEvent (enc ev : Z)
| Call_CloseHandle (ev : Z)
| Call_nvEncDestroyBitstreamBuffer (enc buf : Z)
| Call_nvEncDestroyEncoder (enc : Z).

(** NvD3d11EncoderImpl::releaseResources; 0 is the null pointer. *)
Definition releaseResources (s : NvD3d11EncoderImpl)
  : NvD3d11EncoderImpl * list ReleaseCall :=
  let s1 := if negb (event_ s =? 0) then set_event 0 s else s in
  let c1 :=
    if negb (event_ s =? 0)
    then [Call_nvEncUnregisterAsyncEvent (nvencoder_ s) (event_ s);
          Call_CloseHandle (event_ s)]
    else [] in
  if nvencoder_ s1 =? 0 then (s1, c1)
  else
    let c2 :=
      if negb (bitstream_output_buffer_ s1 =? 0)
      then [Call_nvEncDestroyBitstreamBuffer (nvencoder_ s1) (bitstream_output_buffer_ s1)]
      else [] in
    (set_nvencoder 0 s1, c1 ++ c2 ++ [Call_nvEncDestroyEncoder (nvencoder_ s1)]).

Definition is_DestroyEncoder (c : ReleaseCall) : bool :=
  match c with Call_nvEncDestroyEncoder _ => true | _ => false end.

End NvEncRelease.

(* ===================================================================== *)
(** * service_manager.cpp: replies to the service and event sequences *)
(* ===================================================================== *)

Module ServiceReplies.

Import ServiceMgr.

(** [GUI::ConfirmResult]: the three enumerators the switch names; any
    other value takes the [default] arm. *)
Inductive ConfirmResult :=
| Accept | AcceptWithNextTime | Reject | ConfirmResult_other (raw : Z).

(** [ConfirmConnectionAck_ConfirmResult] *)
Inductive AckResult :=
| ConfirmResult_Agree | ConfirmResult_AgreeNextTime | ConfirmResult_Reject.

Record ConfirmConnectionAck := mkAck {
  ack_device_id : Z;
  ack_result : AckResult
}.

(** What [pipe_server_->send] is called with. *)
Inductive PipeSend :=
| send_ConfirmConnectionAck (fd : Z) (ack : ConfirmConnectionAck)
| send_OperateConnection (fd : Z) (body : list Z).

Definition send_fd (p : PipeSend) : Z :=
  match p with
  | send_ConfirmConnectionAck fd _ => fd
  | send_OperateConnection fd _ => fd
  end.

(** ServiceManager::onUserConfirmedConnection *)
Definition onUserConfirmedConnection (device_id : Z) (result : ConfirmResult)
           (m : ServiceManager) : list PipeSend :=
  let r :=
    match result with
    | Accept => ConfirmResult_Agree
    | AcceptWithNextTime => ConfirmResult_AgreeNextTime
    | Reject => ConfirmResult_Reject
    | ConfirmResult_other _ => ConfirmResult_Reject
    end in
  [send_ConfirmConnectionAck (fd_ m) (mkAck device_id r)].

(** ServiceManager::onOperateConnection *)
Definition onOperateConnection (body : list Z) (m : ServiceManager) : list PipeSend :=
  [send_OperateConnection (fd_ m) body].

(** Everything that can happen to a manager: the three pipe callbacks
    bound in [init] and the two calls made by the GUI. *)
Inductive ManagerEvent :=
| PipeAccepted (fd : Z)
| PipeDisconnected (fd : Z)
| PipeMessage (fd : Z) (msg : PipeMessage)
| UserConfirmedConnection (device_id : Z) (result : ConfirmResult)
| OperateConnection (body : list Z).

Record Outcome := mkOutcome {
  manager : ServiceManager;
  callbacks : list UiCallback;
  sends : list PipeSend
}.

Definition handle (m : ServiceManager) (e : ManagerEvent)
  : ServiceManager * list UiCallback * list PipeSend :=
  match e with
  | PipeAccepted fd => (fst (onPipeAccepted fd m), snd (onPipeAccepted fd m), [])
  | PipeDisconnected fd =>
      (fst (onPipeDisconnected fd m), snd (onPipeDisconnected fd m), [])
  | PipeMessage fd msg => (fst (onPipeMessage fd msg m), snd (onPipeMessage fd msg m), [])
  | UserConfirmedConnection device_id result =>
      (m, [], onUserConfirmedConnection device_id result m)
  | OperateConnection body => (m, [], onOperateConnection body m)
  end.

(** The events are handled one after the other on the IO loop. *)
Fixpoint handle_all (m : ServiceManager) (events : list ManagerEvent) : Outcome :=
  match events with
  | [] => mkOutcome m [] []
  | e :: rest =>
      let r := handle m e in
      let o := handle_all (fst (fst r)) rest in
      mkOutcome (manager o) (snd (fst r) ++ callbacks o) (snd r ++ sends o)
  end.

(** The descriptor replies are addressed to after [events]: the one of
    the last accept, or UINT32_MAX after a disconnect. *)
Fixpoint current_fd (fd0 : Z) (events : list ManagerEvent) : Z :=
  match events with
  | [] => fd0
  | PipeAccepted fd :: rest => current_fd fd rest
  | PipeDisconnected _ :: rest => current_fd (2 ^ 32 - 1) rest
  | _ :: rest => current_fd fd0 rest
  end.

Definition is_disconnect (e : ManagerEvent) : bool :=
  match e with PipeDisconnected _ => true | _ => false end.

Definition is_service_status (e : ManagerEvent) : bool :=
  match e with PipeMessage _ (kServiceStatus _) => true | _ => false end.

Definition is_Down (c : UiCallback) : bool :=
  match c with on_service_status_ Down => true | _ => false end.

Definition is_Up (c : UiCallback) : bool :=
  match c with on_service_status_ Up => true | _ => false end.

End ServiceReplies.

(* ===================================================================== *)
(** * System source: display mode change, program path, impersonation *)
(* ===================================================================== *)

Module SystemMore.

Import System.

(** wingdi.h / winuser.h *)
Definition DM_PELSWIDTH : Z := 524288.
Definition DM_PELSHEIGHT : Z := 1048576.
Definition DM_DISPLAYFREQUENCY : Z := 4194304.
Definition DISP_CHANGE_SUCCESSFUL : Z := 0.

(** The members of the [DEVMODE] handed to [ChangeDisplaySettings] that
    the function sets. *)
Record ChangeRequest := mkChange {
  new_width : Z;
  new_height : Z;
  new_frequency : Z;
  dmFields : Z
}.

Section Change.

(** [ChangeDisplaySettings(&dm, 0)]: the answer may depend on the requests
    made before. *)
Variable ChangeDisplaySettings : list ChangeRequest -> ChangeRequest -> Z.

(** changeDisplaySettings: the result and the requests made, in order. *)
Definition changeDisplaySettings (env : Win32Display) (w h f : Z)
  : bool * list ChangeRequest :=
  match EnumDisplaySettings env with
  | None => (false, [])
  | Some dm =>
      let w := to_u32 w in
      let h := to_u32 h in
      let f := to_u32 f in
      let fields0 := 0 in
      let fields1 :=
        if negb (to_u32 (dmPelsHeight dm) =? h) then Z.lor fields0 DM_PELSHEIGHT
        else fields0 in
      let fields2 :=
        if negb (to_u32 (dmPelsWidth dm) =? w) then Z.lor fields1 DM_PELSWIDTH
        else fields1 in
      let fields3 :=
        if negb (to_u32 (dmDisplayFrequency dm) =? f) then Z.lor fields2 DM_DISPLAYFREQUENCY
        else fields2 in
      let r1 := mkChange w h f fields3 in
      if ChangeDisplaySettings [] r1 =? DISP_CHANGE_SUCCESSFUL then (true, [r1])
      else
        let r2 := mkChange w h f (Z.lor DM_PELSHEIGHT DM_PELSWIDTH) in
        if ChangeDisplaySettings [r1] r2 =? DISP_CHANGE_SUCCESSFUL then (true, [r1; r2])
        else
          let r3 := mkChange w h f DM_DISPLAYFREQUENCY in
          if ChangeDisplaySettings [r1; r2] r3 =? DISP_CHANGE_SUCCESSFUL
          then (true, [r1; r2; r3])
          else (false, [r1; r2; r3])
  end.

End Change.

(** ** Program path *)

(** [std::basic_string::rfind(ch)]: the index of the last occurrence. *)
Fixpoint rfind (ch : Z) (s : list Z) : option nat :=
  match s with
  | [] => None
  | c :: rest =>
      match rfind ch rest with
      | Some i => Some (S i)
      | None => if c =? ch then Some 0%nat else None
      end
  end.

Module Windows.

Definition UNICODE_STRING_MAX_CHARS : Z := 32767.

(** getProgramFilename: the argument is what [GetModuleFileNameW] returns
    and the buffer it filled; [None] is the [false] result, which leaves
    the output parameter untouched. *)
Definition getProgramFilename (GetModuleFileNameW : Z * list Z) : option (list Z) :=
  let kMaxPath := UNICODE_STRING_MAX_CHARS in
  let length := to_u32 (fst GetModuleFileNameW) in
  if (0 <? length) && (length <? kMaxPath)
  then Some (firstn (Z.to_nat length) (snd GetModuleFileNameW))
  else None.

(** getProgramPath(std::wstring&); 92 is the backslash. *)
Definition getProgramPath (GetModuleFileNameW : Z * list Z) : option (list Z) :=
  match getProgramFilename GetModuleFileNameW with
  | Some filename =>
      match rfind 92 filename with
      | Some pos => Some (firstn pos filename)
      | None => None
      end
  | None => None
  end.

Inductive UserCall :=
| Call_GetTokenByName
| Call_ImpersonateLoggedOnUser (token : Z)
| Call_func (token : Z)
| Call_RevertToSelf
| Call_CloseHandle (token : Z).

(** The answers [executeAsUser] reads: [GetTokenByName] gives its BOOL and
    the token it stored, the others their BOOL. *)
Record Impersonation := mkImpersonation {
  GetTokenByName : bool * Z;
  ImpersonateLoggedOnUser : Z -> bool;
  func : Z -> bool;
  RevertToSelf : bool
}.

(** executeAsUser: the result and the calls made, in order. *)
Definition executeAsUser (env : Impersonation) : bool * list UserCall :=
  let hToken := snd (GetTokenByName env) in
  if negb (fst (GetTokenByName env)) then (false, [Call_GetTokenByName])
  else if hToken =? 0 then (false, [Call_GetTokenByName])
  else if negb (ImpersonateLoggedOnUser env hToken)
  then (false, [Call_GetTokenByName; Call_ImpersonateLoggedOnUser hToken;
                Call_CloseHandle hToken])
  else
    let res := func env hToken in
    (res, [Call_GetTokenByName; Call_ImpersonateLoggedOnUser hToken; Call_func hToken;
           Call_RevertToSelf; Call_CloseHandle hToken]).

End Windows.

Module Linux.

(** getProgramFullpath: the argument is what [readlink] returns and the
    buffer it filled; the empty list is the empty string. *)
Definition getProgramFullpath (readlink : Z * list Z) : list Z :=
  let count := fst readlink in
  if count <=? 0 then []
  else firstn (Z.to_nat count) (snd readlink).

(** getProgramPath; 47 is the slash. *)
Definition getProgramPath (readlink : Z * list Z) : list Z :=
  let fullpath := getProgramFullpath readlink in
  match fullpath with
  | [] => []
  | _ =>
      match rfind 47 fullpath with
      | Some pos => firstn pos fullpath
      | None => []
      end
  end.

End Linux.

End SystemMore.

(* ===================================================================== *)
(** * Vocabulary for the properties of the encoder wrapper *)
(* ===================================================================== *)

Module NvEncViews.

Import NvEnc Pipeline.

(** [sdk_version] of [loadNvApi]. *)
Definition sdk_version (major minor : Z) : Z :=
  to_u32 (Z.lor (Z.shiftl major 4) minor).

(** The calls [loadNvApi] makes when nothing fails. *)
Definition load_calls : list NvCall :=
  [Call_DynamicLibrary_load;
   Call_getFunc "NvEncodeAPIGetMaxSupportedVersion";
   Call_NvEncodeAPIGetMaxSupportedVersion;
   Call_getFunc "NvEncodeAPICreateInstance";
   Call_NvEncodeAPICreateInstance].

(** [machine_version] as the driver reports it to a [loadNvApi] started
    at history [h]. *)
Definition machine_version (drv : NvDriver) (h : History) : Z :=
  to_u32 (snd (on_GetMaxSupportedVersion drv
                 ((h ++ [Call_DynamicLibrary_load])
                  ++ [Call_getFunc "NvEncodeAPIGetMaxSupportedVersion"]))).

(** The same parameters with another GOP length and profile. *)
Definition with_gop_profile (gop : Z) (profile : Profile) (p : VideoEncodeParamsHelper)
  : VideoEncodeParamsHelper :=
  mkHelper (vp_width p) (vp_height p) (vp_codec p) (vp_fps p) (vp_bitrate p) (vp_qmin p)
           (vp_qmax p) (vp_vbvbufsize p) (vp_vbvinit p) gop (vp_rc p) (vp_preset p) profile.

Definition is_reconfigure_call (c : NvCall) : bool :=
  match c with Call_nvEncReconfigureEncoder _ _ _ => true | _ => false end.

Definition is_unmap_call (c : NvCall) : bool :=
  match c with Call_nvEncUnmapInputResource _ _ => true | _ => false end.

(** A request that carries a bitrate or an fps. *)
Definition carries_change (p : ReconfigureParams) : bool :=
  has_value (bitrate_bps p) || has_value (fps p).

(** The encoder object with the three members [reconfigure] writes
    (average bitrate, maximum bitrate, frame rate numerator) blanked;
    every other member of the object, of its initialize parameters and of
    its encode configuration is kept. *)
Definition without_rates (s : NvD3d11EncoderImpl) : NvD3d11EncoderImpl :=
  set_init_params (init_set_frameRateNum 0 (init_params_ s))
    (set_encode_config
       (cfg_set_rc (rc_set_bitrate 0 0 (rcParams (encode_config_ s))) (encode_config_ s))
       s).

End NvEncViews.

(* ===================================================================== *)
(** * Vocabulary for the properties of the input replay *)
(* ===================================================================== *)

Module SendInputViews.

Import SendInput.

(** The four runs of the enumeration the translation treats as ranges
    are consecutive: 26 letters, the digits 1..9 then 0, F1..F12 and
    keypad 1..9. *)
Definition consecutive_ranges (E : ScancodeEnum) : Prop :=
  SCANCODE_Z E = SCANCODE_A E + 25
  /\ SCANCODE_0 E = SCANCODE_1 E + 9
  /\ SCANCODE_F12 E = SCANCODE_F1 E + 11
  /\ SCANCODE_KP_9 E = SCANCODE_KP_1 E + 8.

(** Whether the event moves the pointer in the given mode. *)
Definition carries_motion (absolute : bool) (ev : MouseEvent) : bool :=
  if absolute then has (x ev) || has (y ev)
  else has (delta_x ev) || has (delta_y ev).

End SendInputViews.

(* ===================================================================== *)
(** * Concrete drivers, objects and messages used in the examples *)
(* ===================================================================== *)

Module Samples.

Import NvEnc.

(** A driver on which every call succeeds; the encoder reports an IDR
    picture for every frame. *)
Definition good_driver : NvDriver :=
  mkDriver (fun _ => true) (fun _ _ => true) (fun _ => (NV_ENC_SUCCESS, 193))
           (fun _ => (NV_ENC_SUCCESS, mkFuncs true)) (fun _ => (NV_ENC_SUCCESS, 1001))
           (fun _ _ _ => zero_config) (fun _ => NV_ENC_SUCCESS) (fun _ => 77)
           (fun _ => (NV_ENC_SUCCESS, 2002)) (fun _ => NV_ENC_SUCCESS)
           (fun _ => (NV_ENC_SUCCESS, 3003)) (fun _ => (NV_ENC_SUCCESS, 4004))
           (fun _ => NV_ENC_SUCCESS) (fun _ => true)
           (fun _ => (NV_ENC_SUCCESS, [0; 0; 0; 1; 101]%Z)) (fun _ => NV_ENC_SUCCESS)
           (fun _ => NV_ENC_SUCCESS) (fun _ => NV_ENC_SUCCESS)
           (fun _ => NV_ENC_PIC_TYPE_IDR).

(** The same driver, except that [nvEncCreateBitstreamBuffer] answers
    NV_ENC_ERR_OUT_OF_MEMORY (10) and hands back no buffer. *)
Definition driver_without_bitstream_buffer : NvDriver :=
  mkDriver (on_load good_driver) (on_getFunc good_driver)
           (on_GetMaxSupportedVersion good_driver) (on_CreateInstance good_driver)
           (on_OpenEncodeSessionEx good_driver) (on_GetEncodePresetConfig good_driver)
           (on_InitializeEncoder good_driver) (on_CreateEventA good_driver)
           (fun _ => (10, 0))
           (on_ReconfigureEncoder good_driver) (on_RegisterResource good_driver)
           (on_MapInputResource good_driver) (on_EncodePicture good_driver)
           (on_WaitForSingleObject good_driver) (on_LockBitstream good_driver)
           (on_UnlockBitstream good_driver) (on_UnmapInputResource good_driver)
           (on_UnregisterResource good_driver) (on_GetEncodeStats good_driver).

(** The accepting driver, except that [nvEncEncodePicture] answers
    NV_ENC_ERR_INVALID_PARAM (8). *)
Definition driver_rejecting_pictures : NvDriver :=
  mkDriver (on_load good_driver) (on_getFunc good_driver)
           (on_GetMaxSupportedVersion good_driver) (on_CreateInstance good_driver)
           (on_OpenEncodeSessionEx good_driver) (on_GetEncodePresetConfig good_driver)
           (on_InitializeEncoder good_driver) (on_CreateEventA good_driver)
           (on_CreateBitstreamBuffer good_driver)
           (on_ReconfigureEncoder good_driver) (on_RegisterResource good_driver)
           (on_MapInputResource good_driver) (fun _ => 8)
           (on_WaitForSingleObject good_driver) (on_LockBitstream good_driver)
           (on_UnlockBitstream good_driver) (on_UnmapInputResource good_driver)
           (on_UnregisterResource good_driver) (on_GetEncodeStats good_driver).


(** The accepting driver, except that the encoder reports a P picture
    for every frame. *)
Definition driver_reporting_P : NvDriver :=
  mkDriver (on_load good_driver) (on_getFunc good_driver)
           (on_GetMaxSupportedVersion good_driver) (on_CreateInstance good_driver)
           (on_OpenEncodeSessionEx good_driver) (on_GetEncodePresetConfig good_driver)
           (on_InitializeEncoder good_driver) (on_CreateEventA good_driver)
           (on_CreateBitstreamBuffer good_driver)
           (on_ReconfigureEncoder good_driver) (on_RegisterResource good_driver)
           (on_MapInputResource good_driver) (on_EncodePicture good_driver)
           (on_WaitForSingleObject good_driver) (on_LockBitstream good_driver)
           (on_UnlockBitstream good_driver) (on_UnmapInputResource good_driver)
           (on_UnregisterResource good_driver) (fun _ => NV_ENC_PIC_TYPE_P).

(** NVENCAPI 12.1, the version the examples are built against. *)
Definition api_major : Z := 12.
Definition api_minor : Z := 1.

Definition zero_init_params : NV_ENC_INITIALIZE_PARAMS :=
  mkInit GUID_zero GUID_zero 0 0 0 0 0 0 false false false false 0 0 cfg_null.

(** The object as the constructor leaves it (device handle 5). *)
Definition fresh_encoder : NvD3d11EncoderImpl :=
  mkImpl 5 0 0 Codec_Unknown false (mkFuncs false) 0 NV_ENC_BUFFER_FORMAT_ARGB
         zero_init_params zero_config 0 0 false.

(** 1920x1080, H.264, 60 fps, 8 Mbit/s, QP in [10, 40]. *)
Definition sample_params : VideoEncodeParamsHelper :=
  mkHelper 1920 1080 H264 60 8000000 (10, 10, 10) (40, 40, 40) None None 0 CBR Balanced AvcMain.

(** The encoder after a successful [init]. *)
Definition live_encoder : NvD3d11EncoderImpl :=
  Eval vm_compute in
    final (init good_driver api_major api_minor sample_params fresh_encoder []).

Definition h264_10bit_encoder : NvD3d11EncoderImpl :=
  mkImpl 5 0 0 Codec_Unknown false (mkFuncs false) 0 NV_ENC_BUFFER_FORMAT_YUV420_10BIT
         zero_init_params zero_config 0 0 false.

(** Two Reconfigure messages arriving out of order: version 2 (6 Mbit/s)
    first, then the older version 1 (4 Mbit/s). *)
Definition stale_sequence : list Pipeline.Reconfigure :=
  [ Pipeline.mkMsg 2 (mkReconf (Some 6000000) None);
    Pipeline.mkMsg 1 (mkReconf (Some 4000000) None) ].

(** A pipeline around the live encoder that has applied no
    reconfiguration yet. *)
Definition live_pipeline : Pipeline.CapturePipeline :=
  Pipeline.mkPipeline live_encoder [] None.

(** A request, in the specification's terms, that keeps 1920x1080 and asks
    for 30 fps, 4 Mbit/s and QP bounds [20, 30]. *)
Definition qp_request : Pipeline.StreamParams :=
  Pipeline.mkStream 1920 1080 30 4000000 (mkQP 20 20 20) (mkQP 30 30 30).

(** binary32 values 0.5 and 1.0, and 8388736 * 2^-24 (just above 0.5). *)
Definition f32_half : float32 := S754_finite false 8388608 (-24).
Definition f32_one : float32 := S754_finite false 8388608 (-23).
Definition f32_above_half : float32 := S754_finite false 8388736 (-24).

(** A mouse message carrying both a position and a wheel delta. *)
Definition position_and_wheel : SendInput.MouseEvent :=
  SendInput.mkMouse None (Some f32_half) (Some f32_half) None None (Some 120).

Definition position_only : SendInput.MouseEvent :=
  SendInput.mkMouse None (Some f32_half) (Some f32_one) None None None.

Definition delta_only : SendInput.MouseEvent :=
  SendInput.mkMouse (Some SendInput.LeftDown) None None (Some (-3)) (Some 7) None.

End Samples.

(* ===================================================================== *)
(** * Properties of the encoder wrapper *)
(* ===================================================================== *)

Module NvEncFacts.

Import NvEnc Pipeline Samples.

Ltac run_enc :=
  unfold reconfigure, bind, ret, modify, get, ask, log_err, log_info,
         result, final, trace; simpl.

(** The three monad laws, pointwise. *)
Lemma bind_ret_l :
  forall (A B : Type) (a : A) (k : A -> Enc B) s h, bind (ret a) k s h = k a s h.
Proof. reflexivity. Qed.

Lemma bind_ret_r :
  forall (A : Type) (m : Enc A) s h, bind m ret s h = m s h.
Proof. intros A m s h. unfold bind, ret. destruct (m s h) as [[a s'] h']. reflexivity. Qed.

Lemma bind_assoc :
  forall (A B C : Type) (m : Enc A) (k : A -> Enc B) (k' : B -> Enc C) s h,
    bind (bind m k) k' s h = bind m (fun a => bind (k a) k') s h.
Proof. reflexivity. Qed.

Example live_encoder_streams :
  stream_params_of live_encoder = mkStream 1920 1080 60 8000000 (mkQP 10 10 10) (mkQP 40 40 40).
Proof. reflexivity. Qed.

Example maxbitrate_4M :
  stored_maxbitrate (mkReconf (Some 4000000) None) live_encoder = 4200000.
Proof. reflexivity. Qed.

(** C9.  A request with neither a bitrate nor an fps leaves the encoder
    object exactly as it was and makes no call at all: the history of
    driver calls (and of log lines) is unchanged. *)
Theorem reconfigure_empty_request_is_noop :
  forall (drv : NvDriver) (s : NvD3d11EncoderImpl) (h : History),
    reconfigure drv (mkReconf None None) s h = (tt, s, h).
Proof.
  intros drv s h. run_enc. reflexivity.
Qed.

(** What one call of [reconfigure] does, field by field. *)
Lemma reconfigure_effect :
  forall (drv : NvDriver) (p : ReconfigureParams) (s : NvD3d11EncoderImpl) (h : History),
    let r := reconfigure drv p s h in
    averageBitRate (rcParams (encode_config_ (final r))) = stored_bitrate p s
    /\ maxBitRate (rcParams (encode_config_ (final r))) = stored_maxbitrate p s
    /\ frameRateNum (init_params_ (final r)) = stored_fps p s
    /\ minQP (rcParams (encode_config_ (final r))) = minQP (rcParams (encode_config_ s))
    /\ maxQP (rcParams (encode_config_ (final r))) = maxQP (rcParams (encode_config_ s))
    /\ width_ (final r) = width_ s
    /\ height_ (final r) = height_ s
    /\ nvencoder_ (final r) = nvencoder_ s
    /\ trace r = h ++ reconfigure_calls drv p (final r) h.
Proof.
  intros drv [[b|] [f|]] s h; unfold stored_bitrate, stored_maxbitrate, stored_fps,
    reconfigure_calls; run_enc;
  try (destruct (succeeded (on_ReconfigureEncoder drv h)); simpl;
       rewrite <- ?app_assoc; simpl);
  rewrite ?app_nil_r; repeat split; reflexivity.
Qed.

(** C1 (as amended).  Whatever the driver answers, [reconfigure] returns
    nothing (its type is [void]); it stores the requested bitrate (average,
    and 1.05 times it as maximum) and fps when the request carries them,
    keeps QP bounds, resolution and the session handle as they were, and
    makes at most one driver call, [nvEncReconfigureEncoder] on the same
    session, whose failure is only logged. *)
Theorem reconfigure_updates_rates_in_place :
  forall (drv : NvDriver) (p : ReconfigureParams) (s : NvD3d11EncoderImpl) (h : History),
    let r := reconfigure drv p s h in
    result r = tt
    /\ stream_params_of (final r) =
         mkStream (width_ s) (height_ s) (stored_fps p s) (stored_bitrate p s)
                  (minQP (rcParams (encode_config_ s)))
                  (maxQP (rcParams (encode_config_ s)))
    /\ maxBitRate (rcParams (encode_config_ (final r))) = stored_maxbitrate p s
    /\ nvencoder_ (final r) = nvencoder_ s
    /\ trace r = h ++ reconfigure_calls drv p (final r) h.
Proof.
  intros drv p s h r.
  destruct (reconfigure_effect drv p s h)
    as (Hb & Hm & Hf & Hqmin & Hqmax & Hw & Hh & He & Ht).
  fold r in Hb, Hm, Hf, Hqmin, Hqmax, Hw, Hh, He, Ht.
  repeat split; try assumption.
  - destruct (result r); reflexivity.
  - unfold stream_params_of. congruence.
Qed.

(** C1 (as stated) fails.  The request [qp_request] keeps the resolution,
    so the specification's [reconfigure] succeeds and moves the QP bounds
    to [20, 30]; no [ReconfigureParams] and no driver make the code reach
    that result from the live encoder, whose bounds stay [10, 40]. *)
Lemma reconfigure_never_moves_qp_bounds :
  fst (spec_reconfigure (stream_params_of live_encoder) qp_request) = true
  /\ forall (drv : NvDriver) (p : ReconfigureParams) (h : History),
       stream_params_of (final (reconfigure drv p live_encoder h))
       <> snd (spec_reconfigure (stream_params_of live_encoder) qp_request).
Proof.
  split; [reflexivity|].
  intros drv p h Heq.
  destruct (reconfigure_effect drv p live_encoder h)
    as (_ & _ & _ & Hqmin & _).
  apply (f_equal sp_qmin) in Heq. simpl in Heq.
  rewrite Hqmin in Heq. vm_compute in Heq. discriminate Heq.
Qed.

(** A sequence of requests threads the object through [reconfigure]. *)
Lemma reconfigure_each_cons :
  forall drv p rest s h,
    reconfigure_each drv (p :: rest) s h =
    reconfigure_each drv rest
      (final (reconfigure drv p s h))
      (trace (reconfigure drv p s h)).
Proof. reflexivity. Qed.

(** The encoder itself keeps no version: after any sequence of calls the
    stored bitrate and fps are those of the last request, in call order,
    that carries the field. *)
Lemma reconfigure_each_last_wins :
  forall (drv : NvDriver) (reqs : list ReconfigureParams) (s : NvD3d11EncoderImpl)
         (h : History),
    let r := reconfigure_each drv reqs s h in
    averageBitRate (rcParams (encode_config_ (final r))) =
      latest (fun p => option_map to_u32 (bitrate_bps p)) reqs
             (averageBitRate (rcParams (encode_config_ s)))
    /\ frameRateNum (init_params_ (final r)) =
         latest (fun p => option_map to_u32 (fps p)) reqs (frameRateNum (init_params_ s)).
Proof.
  intros drv reqs. induction reqs as [|p rest IH]; intros s h.
  - split; reflexivity.
  - cbv zeta. rewrite reconfigure_each_cons.
    destruct (reconfigure_effect drv p s h) as (Hb & _ & Hf & _).
    destruct (IH (final (reconfigure drv p s h))
                 (trace (reconfigure drv p s h))) as [IHb IHf].
    cbv zeta in IHb, IHf. rewrite IHb, IHf, Hb, Hf. simpl latest.
    unfold stored_bitrate, stored_fps.
    destruct (bitrate_bps p), (fps p); split; reflexivity.
Qed.

(** ** The version filter in front of [reconfigure] *)

Lemma drop_stale_lower_bound :
  forall msgs v m, In m (drop_stale (Some v) msgs) -> v <= version m.
Proof.
  induction msgs as [|a rest IH]; intros v m HIn; simpl in HIn; [contradiction|].
  destruct (version a <? v) eqn:E.
  - apply IH. exact HIn.
  - apply Z.ltb_ge in E. destruct HIn as [Heq|HIn].
    + subst m. exact E.
    + apply IH in HIn. lia.
Qed.

Lemma nondecreasing_cons :
  forall a l, (forall b, In b l -> a <= b) -> nondecreasing l -> nondecreasing (a :: l).
Proof.
  intros a [|b l] Hle Hl; simpl; [exact I|].
  split; [apply Hle; left; reflexivity|exact Hl].
Qed.

Lemma drop_stale_kept_after :
  forall msgs m b,
    In b (map version (drop_stale (Some (version m)) msgs)) -> version m <= b.
Proof.
  intros msgs m b HIn. apply in_map_iff in HIn. destruct HIn as (x & Hx & HIn).
  subst b. apply (drop_stale_lower_bound msgs). exact HIn.
Qed.

Lemma drop_stale_nondecreasing :
  forall msgs last, nondecreasing (map version (drop_stale last msgs)).
Proof.
  induction msgs as [|a rest IH]; intros last; [exact I|].
  simpl. destruct last as [v|].
  - destruct (version a <? v); [apply IH|].
    simpl map. apply nondecreasing_cons; [apply drop_stale_kept_after|apply IH].
  - simpl map. apply nondecreasing_cons; [apply drop_stale_kept_after|apply IH].
Qed.

(** One handler call, by cases on the staleness test. *)
Lemma onReconfigure_cases :
  forall drv m p,
    (is_stale (last_applied_ p) m = true /\ onReconfigure drv m p = p)
    \/ (is_stale (last_applied_ p) m = false
        /\ onReconfigure drv m p =
             mkPipeline (final (reconfigure drv (request m) (encoder_ p) (driver_calls_ p)))
                        (trace (reconfigure drv (request m) (encoder_ p) (driver_calls_ p)))
                        (Some (version m))).
Proof.
  intros drv m p. unfold onReconfigure.
  destruct (is_stale (last_applied_ p) m); [left|right]; split; reflexivity.
Qed.

Lemma drop_stale_cons :
  forall last m rest,
    drop_stale last (m :: rest) =
    if is_stale last m then drop_stale last rest
    else m :: drop_stale (Some (version m)) rest.
Proof. intros [v|] m rest; reflexivity. Qed.

(** C2.  The pipeline's handler puts the version test in front of
    [reconfigure].  For every sequence of Reconfigure messages, what
    reaches the encoder is exactly the requests of the messages that were
    not stale on arrival, in order; their versions never decrease and
    none is below the version applied before the sequence; the pipeline
    remembers the last of them; and a message with a lower version than
    that is dropped whole: encoder, driver history and remembered version
    stay as they are. *)
Theorem stale_reconfigure_is_ignored :
  forall (drv : NvDriver) (msgs : list Reconfigure) (p : CapturePipeline),
    let q := onReconfigureAll drv msgs p in
    let applied := drop_stale (last_applied_ p) msgs in
    let r := reconfigure_each drv (map request applied) (encoder_ p) (driver_calls_ p) in
    encoder_ q = final r
    /\ driver_calls_ q = trace r
    /\ last_applied_ q = last_version (last_applied_ p) applied
    /\ nondecreasing (map version applied)
    /\ (forall v m, last_applied_ p = Some v -> In m applied -> v <= version m)
    /\ (forall v m, last_applied_ q = Some v -> version m < v ->
          onReconfigure drv m q = q).
Proof.
  intros drv msgs p. cbv zeta.
  split; [|split; [|split; [|split; [|split]]]].
  - revert p. induction msgs as [|m rest IH]; intros p; [reflexivity|].
    simpl onReconfigureAll. rewrite drop_stale_cons.
    destruct (onReconfigure_cases drv m p) as [[Hs Hq]|[Hs Hq]]; rewrite Hs, Hq, IH.
    + reflexivity.
    + reflexivity.
  - revert p. induction msgs as [|m rest IH]; intros p; [reflexivity|].
    simpl onReconfigureAll. rewrite drop_stale_cons.
    destruct (onReconfigure_cases drv m p) as [[Hs Hq]|[Hs Hq]]; rewrite Hs, Hq, IH.
    + reflexivity.
    + reflexivity.
  - revert p. induction msgs as [|m rest IH]; intros p; [reflexivity|].
    simpl onReconfigureAll. rewrite drop_stale_cons.
    destruct (onReconfigure_cases drv m p) as [[Hs Hq]|[Hs Hq]]; rewrite Hs, Hq, IH.
    + reflexivity.
    + reflexivity.
  - apply drop_stale_nondecreasing.
  - intros v m Hlast HIn. rewrite Hlast in HIn.
    apply (drop_stale_lower_bound msgs). exact HIn.
  - intros v m Hlast Hlt. unfold onReconfigure, is_stale. rewrite Hlast.
    apply Z.ltb_lt in Hlt. rewrite Hlt. reflexivity.
Qed.

(** On [stale_sequence] the version-1 message arrives after version 2 has
    been applied: it changes nothing, and the bitrate stays at the
    6 Mbit/s of version 2. *)
Lemma stale_reconfigure_is_ignored_witness :
  onReconfigureAll good_driver stale_sequence live_pipeline
  = onReconfigureAll good_driver [mkMsg 2 (mkReconf (Some 6000000) None)] live_pipeline
  /\ averageBitRate (rcParams (encode_config_
       (encoder_ (onReconfigureAll good_driver stale_sequence live_pipeline)))) = 6000000.
Proof.
  split; [|reflexivity].
  exact (proj2 (proj2 (proj2 (proj2 (proj2
           (stale_reconfigure_is_ignored good_driver
              [mkMsg 2 (mkReconf (Some 6000000) None)] live_pipeline)))))
           2 (mkMsg 1 (mkReconf (Some 4000000) None)) eq_refl eq_refl).
Defined.

(** ** Encoding one frame *)

Ltac run_encode :=
  unfold encodeOneFrame, initInputFrame, uninitInputFrame, bind, ret, modify, get, ask,
         log_err, log_info, result, final, trace; simpl.

Ltac no_inner_if c :=
  lazymatch c with
  | context [if _ then _ else _] => fail
  | _ => idtac
  end.

Ltac split_if :=
  match goal with
  | |- context [if negb ?c then _ else _] => no_inner_if c; destruct c eqn:?; simpl
  | |- context [if ?c then _ else _] => no_inner_if c; destruct c eqn:?; simpl
  end.

Ltac split_status := repeat split_if.

(** Every call [encodeOneFrame] makes is appended to the history. *)
Lemma encodeOneFrame_extends_history :
  forall drv input iframe s h,
    exists calls, trace (encodeOneFrame drv input iframe s h) = h ++ calls.
Proof.
  intros. run_encode. split_status;
    rewrite <- ?app_assoc; eexists; reflexivity.
Qed.

Ltac in_calls H :=
  simpl in H;
  repeat (destruct H as [H|H]; [try discriminate H; try (inversion H; subst; clear H)|]);
  try contradiction.

(** What [encodeOneFrame] submits and returns, for either value of the
    keyframe request. *)
Lemma encodeOneFrame_submits :
  forall drv input iframe s h,
    let r := encodeOneFrame drv input iframe s h in
    exists calls,
      trace r = h ++ calls
      /\ (forall enc pic, In (Call_nvEncEncodePicture enc pic) calls ->
            enc = nvencoder_ s /\ pic = submitted_picture drv input iframe s h)
      /\ (input_mapped drv input s h = true ->
            In (Call_nvEncEncodePicture (nvencoder_ s)
                  (submitted_picture drv input iframe s h)) calls)
      /\ (forall f, result r = Some f ->
            exists h', trace r = h' ++ [Call_nvEncGetEncodeStats (nvencoder_ s)
                                          (bitstream_output_buffer_ s)]
                       /\ is_keyframe f = is_I_or_IDR (on_GetEncodeStats drv h')).
Proof.
  intros drv input iframe s h. unfold input_mapped, submitted_picture.
  run_encode.
  destruct (succeeded (fst (on_RegisterResource drv h))) eqn:Hreg; simpl;
    [destruct (succeeded (fst (on_MapInputResource drv
               (h ++ [Call_nvEncRegisterResource (nvencoder_ s) input])))) eqn:Hmap; simpl|];
    split_status;
    (eexists; split; [rewrite <- ?app_assoc; simpl; reflexivity|]);
    (split; [intros enc pic HIn; in_calls HIn; split; reflexivity|]);
    (split; [intros Hm; try discriminate Hm; simpl; tauto|]);
    intros f Hf; try discriminate Hf;
    inversion Hf; subst; clear Hf; simpl;
    eexists; split; reflexivity.
Qed.







(** A P picture comes back unmarked, whatever was requested. *)
Example p_picture_is_not_keyframe :
  option_map is_keyframe
    (fst (fst (encodeFrame driver_reporting_P 9
                 (requestKeyframe (mkEncoder live_encoder false)) []))) = Some false.
Proof. reflexivity. Qed.

(** ** Initialisation *)

Example live_encoder_is_initialised :
  let r := init good_driver api_major api_minor sample_params fresh_encoder [] in
  result r = true /\ final r = live_encoder.
Proof. split; vm_compute; reflexivity. Qed.

(** H.264 with a 10-bit buffer format is refused before the library is
    even loaded: the only trace left is the log line. *)
Lemma init_rejects_h264_10bit :
  forall drv major minor params s h,
    vp_codec params = H264 ->
    is_10bit (buffer_format_ s) = true ->
    let r := init drv major minor params s h in
    result r = false
    /\ trace r = h ++ [LOG_ERR "Unsupported buffer format when using h264"]
    /\ nvencoder_ (final r) = nvencoder_ s.
Proof.
  intros drv major minor params s h Hc Hf.
  unfold init, bind, ret, modify, get, ask, log_err, result, final, trace. simpl.
  rewrite Hc, Hf. simpl. repeat split; reflexivity.
Qed.

Example init_rejects_h264_10bit_sample :
  init good_driver api_major api_minor sample_params h264_10bit_encoder []
  = (false, set_dims 1920 1080 H264 h264_10bit_encoder,
     [LOG_ERR "Unsupported buffer format when using h264"]).
Proof. vm_compute. reflexivity. Qed.

(** [initBuffers] reports success whatever [nvEncCreateBitstreamBuffer]
    answered. *)
Lemma initBuffers_always_true :
  forall drv s h, result (initBuffers drv s h) = true.
Proof.
  intros drv s h. unfold initBuffers, bind, ret, modify, get, ask, log_err, result. simpl.
  destruct (succeeded (fst (on_CreateBitstreamBuffer drv h))); reflexivity.
Qed.

(** C6, the failing run.  On a driver whose [nvEncCreateBitstreamBuffer]
    fails, [init] logs the failure, stores the null buffer and still
    returns [true]. *)
Theorem init_succeeds_without_bitstream_buffer :
  let r := init driver_without_bitstream_buffer api_major api_minor sample_params
                fresh_encoder [] in
  (forall h, succeeded (fst (on_CreateBitstreamBuffer driver_without_bitstream_buffer h))
             = false)
  /\ result r = true
  /\ bitstream_output_buffer_ (final r) = 0
  /\ In (LOG_ERR "nvEncCreateBitstreamBuffer failed") (trace r).
Proof.
  cbv zeta. split; [intros h; reflexivity|]. split; [vm_compute; reflexivity|].
  split; [vm_compute; reflexivity|].
  vm_compute. tauto.
Qed.

End NvEncFacts.

(* ===================================================================== *)
(** * Properties of the service manager *)
(* ===================================================================== *)

Module ServiceMgrFacts.

Import ServiceMgr.

(** One callback per ServiceStatus message, always. *)
Lemma onServiceStatus_emits_one_callback :
  forall code m, List.length (snd (onServiceStatus code m)) = 1%nat.
Proof. intros [|c] m; reflexivity. Qed.

(** C4, the failing run.  A ServiceStatus message whose code is not
    Success is reported to the UI as [Up], the same status a Success
    produces. *)
Theorem onServiceStatus_failure_reports_Up :
  forall (code : Z) (fd : Z) (m : ServiceManager),
    onPipeMessage fd (kServiceStatus (ErrorCode_other code)) m
    = (m, [on_service_status_ Up])
    /\ onPipeMessage fd (kServiceStatus (ErrorCode_other code)) m
       = onPipeMessage fd (kServiceStatus Success) m.
Proof. intros code fd m. split; reflexivity. Qed.

(** The sibling path: a broken pipe is reported as [Down]. *)
Lemma onPipeDisconnected_reports_Down :
  forall fd m, snd (onPipeDisconnected fd m) = [on_service_status_ Down].
Proof. reflexivity. Qed.

End ServiceMgrFacts.

(* ===================================================================== *)
(** * Properties of the display query *)
(* ===================================================================== *)

Module SystemFacts.

Import System.

Lemma to_u32_range : forall z, 0 <= to_u32 z < 2 ^ 32.
Proof. intros z. unfold to_u32. apply Z.mod_pos_bound. reflexivity. Qed.

(** C10.  The refresh frequency returned on Windows is never 0: it is 60
    when the enumeration reports 0 and when the enumeration fails, and in
    the failing case width and height are the screen metrics. *)
Theorem getDisplayOutputDesc_frequency_nonzero :
  forall env : Win32Display,
    frequency (getDisplayOutputDesc env) <> 0
    /\ (forall dm, EnumDisplaySettings env = Some dm ->
          to_u32 (dmDisplayFrequency dm) = 0 ->
          frequency (getDisplayOutputDesc env) = 60)
    /\ (EnumDisplaySettings env = None ->
          getDisplayOutputDesc env
          = mkDesc (to_u32 (getScreenWidth env)) (to_u32 (getScreenHeight env)) 60).
Proof.
  intros env. unfold getDisplayOutputDesc.
  destruct (EnumDisplaySettings env) as [dm|] eqn:He; (split; [|split]).
  - simpl. destruct (Z.eqb_spec (to_u32 (dmDisplayFrequency dm)) 0) as [Hz|Hz];
      [discriminate | exact Hz].
  - intros dm' Hdm Hz. injection Hdm as <-. simpl. rewrite Hz. reflexivity.
  - intros Hn. discriminate Hn.
  - simpl. discriminate.
  - intros dm Hdm. discriminate Hdm.
  - reflexivity.
Qed.

(** A display whose mode reports frequency 0, and one whose enumeration
    fails on a 1920x1080 desktop. *)
Lemma getDisplayOutputDesc_frequency_nonzero_witness :
  frequency (getDisplayOutputDesc (mkDisplay (Some (mkDevmode 2560 1440 0)) 0 0)) = 60
  /\ getDisplayOutputDesc (mkDisplay None 1920 1080) = mkDesc 1920 1080 60.
Proof.
  split.
  - apply (proj1 (proj2 (getDisplayOutputDesc_frequency_nonzero
                           (mkDisplay (Some (mkDevmode 2560 1440 0)) 0 0)))
             (mkDevmode 2560 1440 0)); reflexivity.
  - apply (proj2 (proj2 (getDisplayOutputDesc_frequency_nonzero
                           (mkDisplay None 1920 1080)))).
    reflexivity.
Defined.

End SystemFacts.

(* ===================================================================== *)
(** * Properties of the input replay *)
(* ===================================================================== *)

Module SendInputFacts.

Import SendInput Samples.

Lemma switch_cases_all_valid :
  forall E, Forall (fun c => valid (snd c) = true) (switch_cases E).
Proof. intros E. unfold switch_cases. repeat constructor. Qed.

Lemma switch_on_entry :
  forall scancode cases,
    Forall (fun c => valid (snd c) = true) cases ->
    match switch_on scancode cases with
    | Some k => valid k = true /\ existsb (fun c => scancode =? fst c) cases = true
    | None => existsb (fun c => scancode =? fst c) cases = false
    end.
Proof.
  intros scancode cases Hall. induction Hall as [|[label k] rest Hk _ IH]; simpl.
  - reflexivity.
  - destruct (scancode =? label); simpl.
    + split; [exact Hk | reflexivity].
    + exact IH.
Qed.

(** The [valid] component of the tuple says exactly whether the scancode
    has an entry. *)
Lemma valid_iff_has_entry :
  forall E scancode, valid (scancode_to_winkey E scancode) = has_entry E scancode.
Proof.
  intros E sc. unfold scancode_to_winkey, has_entry, in_ranges.
  destruct ((SCANCODE_A E <=? sc) && (sc <=? SCANCODE_Z E)); [reflexivity|].
  destruct ((SCANCODE_1 E <=? sc) && (sc <? SCANCODE_0 E)); [reflexivity|].
  destruct (sc =? SCANCODE_0 E); [reflexivity|].
  destruct ((SCANCODE_F1 E <=? sc) && (sc <=? SCANCODE_F12 E)); [reflexivity|].
  destruct ((SCANCODE_KP_1 E <=? sc) && (sc <=? SCANCODE_KP_9 E)); [reflexivity|].
  cbn [orb].
  pose proof (switch_on_entry sc (switch_cases E) (switch_cases_all_valid E)) as H.
  destruct (switch_on sc (switch_cases E)) as [k|].
  - destruct H as [Hv He]. rewrite Hv, He. reflexivity.
  - rewrite H. reflexivity.
Qed.

Example key_A_down :
  onKeyboardEvent usb_hid_scancodes (fun vk => vk - 35) (mkKeyboard 4 true)
  = [INPUT_KEYBOARD (mkKi 65 30 KEYEVENTF_SCANCODE 0)].
Proof. reflexivity. Qed.

Example key_right_ctrl_up :
  onKeyboardEvent usb_hid_scancodes (fun _ => 29) (mkKeyboard 228 false)
  = [INPUT_KEYBOARD (mkKi VK_RCONTROL 29 11 0)].
Proof. reflexivity. Qed.

(** C7.  A keyboard event whose scancode has no entry injects nothing; one
    whose scancode has an entry injects exactly one keyboard input, whose
    virtual key is the entry's and whose KEYUP flag is set exactly when
    the event is a key release. *)
Theorem onKeyboardEvent_drops_or_injects_one :
  forall (E : ScancodeEnum) (MapVirtualKeyW : Z -> Z) (ev : KeyboardEvent),
    (has_entry E (key ev) = false -> onKeyboardEvent E MapVirtualKeyW ev = [])
    /\ (has_entry E (key ev) = true ->
          exists ki,
            onKeyboardEvent E MapVirtualKeyW ev = [INPUT_KEYBOARD ki]
            /\ wVk ki = win_key (scancode_to_winkey E (key ev))
            /\ Z.testbit (ki_dwFlags ki) 1 = negb (down ev)).
Proof.
  intros E Map ev. unfold onKeyboardEvent.
  rewrite <- (valid_iff_has_entry E (key ev)).
  destruct (valid (scancode_to_winkey E (key ev))); simpl; split; intros H;
    try discriminate H; try reflexivity.
  eexists. split; [reflexivity|]. split; [reflexivity|]. simpl.
  destruct (use_scancode _), (down ev), (extented _); reflexivity.
Qed.

(** Scancode 0 has no entry in the USB HID numbering; scancode 40 is
    Return. *)
Lemma onKeyboardEvent_drops_or_injects_one_witness :
  onKeyboardEvent usb_hid_scancodes (fun vk => vk) (mkKeyboard 0 true) = []
  /\ exists ki,
       onKeyboardEvent usb_hid_scancodes (fun vk => vk) (mkKeyboard 40 false)
       = [INPUT_KEYBOARD ki]
       /\ wVk ki = VK_RETURN
       /\ Z.testbit (ki_dwFlags ki) 1 = true.
Proof.
  split.
  - apply (proj1 (onKeyboardEvent_drops_or_injects_one usb_hid_scancodes (fun vk => vk)
                    (mkKeyboard 0 true))).
    reflexivity.
  - apply (proj2 (onKeyboardEvent_drops_or_injects_one usb_hid_scancodes (fun vk => vk)
                    (mkKeyboard 40 false))).
    reflexivity.
Defined.

(** ** Mouse *)

Example absolute_half_and_one :
  onMouseEvent true position_only = [INPUT_MOUSE (mkMi 32767 65535 0 32769 0)].
Proof. reflexivity. Qed.

(** The product is rounded to binary32 before it is truncated:
    65535 * (8388736 * 2^-24) = 32767.99999237..., which rounds to 32768. *)
Example absolute_product_is_rounded :
  f32_to_i32 (f32_mul f32_65535 f32_above_half) = 32768
  /\ (16776960 * 8388736) / 2 ^ 32 = 32767.
Proof. split; reflexivity. Qed.

Definition absolute_move : Z := Z.lor MOUSEEVENTF_ABSOLUTE MOUSEEVENTF_MOVE.

(** C8 (as amended).  For a mouse event without a wheel delta: in absolute
    mode, if it carries a position, the injected input has
    dx = trunc(65535.0f * x) and dy = trunc(65535.0f * y), the products
    being binary32 products, with ABSOLUTE and MOVE set; in relative
    mode, if it carries a delta, dx and dy are the raw deltas with MOVE
    set and ABSOLUTE clear. *)
Theorem onMouseEvent_without_wheel :
  forall (absolute : bool) (ev : MouseEvent),
    delta_z ev = None ->
    exists mi,
      onMouseEvent absolute ev = [INPUT_MOUSE mi]
      /\ (absolute = true -> has (x ev) || has (y ev) = true ->
            dx mi = f32_to_i32 (f32_mul f32_65535 (get_float (x ev)))
            /\ dy mi = f32_to_i32 (f32_mul f32_65535 (get_float (y ev)))
            /\ Z.land (mi_dwFlags mi) absolute_move = absolute_move)
      /\ (absolute = false -> has (delta_x ev) || has (delta_y ev) = true ->
            dx mi = get_int32 (delta_x ev)
            /\ dy mi = get_int32 (delta_y ev)
            /\ Z.testbit (mi_dwFlags mi) 0 = true
            /\ Z.testbit (mi_dwFlags mi) 15 = false).
Proof.
  intros absolute ev Hz. unfold onMouseEvent. rewrite Hz. simpl.
  eexists. split; [reflexivity|].
  split; intros Ha Hp; subst absolute; simpl; rewrite Hp; simpl.
  - repeat split.
    destruct (key_falg ev) as [[| | | | | | | | | |raw]|]; reflexivity.
  - repeat split;
      destruct (key_falg ev) as [[| | | | | | | | | |raw]|]; reflexivity.
Qed.

Lemma onMouseEvent_without_wheel_witness :
  (exists mi, onMouseEvent true position_only = [INPUT_MOUSE mi]
              /\ dx mi = 32767 /\ dy mi = 65535
              /\ Z.land (mi_dwFlags mi) absolute_move = absolute_move)
  /\ (exists mi, onMouseEvent false delta_only = [INPUT_MOUSE mi]
                 /\ dx mi = -3 /\ dy mi = 7
                 /\ Z.testbit (mi_dwFlags mi) 0 = true
                 /\ Z.testbit (mi_dwFlags mi) 15 = false).
Proof.
  split.
  - destruct (onMouseEvent_without_wheel true position_only eq_refl)
      as (mi & Hev & Habs & _).
    exists mi. split; [exact Hev|]. exact (Habs eq_refl eq_refl).
  - destruct (onMouseEvent_without_wheel false delta_only eq_refl)
      as (mi & Hev & _ & Hrel).
    exists mi. split; [exact Hev|]. exact (Hrel eq_refl eq_refl).
Defined.

(** C8 (as stated) fails.  In absolute mode the event [position_and_wheel]
    carries the position (0.5, 0.5), inside the unit square, together
    with a wheel delta; the flags of the injected input are exactly
    MOUSEEVENTF_WHEEL, so neither ABSOLUTE nor MOVE is set. *)
Lemma wheel_event_loses_absolute_move :
  x position_and_wheel = Some f32_half
  /\ y position_and_wheel = Some f32_half
  /\ valid_binary f32_prec f32_emax f32_half = true
  /\ f32_nonneg f32_half && f32_le_one f32_half = true
  /\ onMouseEvent true position_and_wheel
     = [INPUT_MOUSE (mkMi 32767 32767 120 MOUSEEVENTF_WHEEL 0)]
  /\ ~ (exists mi,
          onMouseEvent true position_and_wheel = [INPUT_MOUSE mi]
          /\ Z.land (mi_dwFlags mi) absolute_move = absolute_move).
Proof.
  repeat (split; [reflexivity|]).
  intros (mi & Hev & Hfl).
  change (onMouseEvent true position_and_wheel)
    with [INPUT_MOUSE (mkMi 32767 32767 120 MOUSEEVENTF_WHEEL 0)] in Hev.
  injection Hev as <-. discriminate Hfl.
Qed.

End SendInputFacts.

(* ===================================================================== *)
(** * Properties of the session coordinator *)
(* ===================================================================== *)

Module SessionFacts.

Import Session.

Lemma closed_absorbs :
  forall s e, state s = Closed ->
    state (fst (step s e)) = Closed /\ snd (step s e) = [].
Proof.
  intros s e Hc. unfold step, stop. rewrite Hc.
  destruct e; simpl; split; try reflexivity; exact Hc.
Qed.

Lemma closed_stays_silent :
  forall events s, state s = Closed ->
    state (fst (run s events)) = Closed /\ snd (run s events) = [].
Proof.
  induction events as [|e rest IH]; intros s Hc; simpl.
  - split; [exact Hc | reflexivity].
  - destruct (closed_absorbs s e Hc) as [Hs Hcb].
    destruct (IH (fst (step s e)) Hs) as [Hs' Hcb'].
    rewrite Hcb, Hcb'. split; [exact Hs' | reflexivity].
Qed.

(** C3.  From any session, [stop] leaves the session [Closed] with the
    pipeline and the transport channel released and no pending send; a
    second [stop] changes nothing and reports nothing; and whatever events
    follow, no status callback is emitted and the session stays
    [Closed]. *)
Theorem stop_closes_for_good :
  forall (s : Session) (events : list Event),
    let s' := fst (step s ev_stop) in
    s' = mkSession Closed false false []
    /\ step s' ev_stop = (s', [])
    /\ snd (run s' events) = []
    /\ state (fst (run s' events)) = Closed.
Proof.
  intros s events. cbv zeta. simpl.
  split; [reflexivity|]. split; [reflexivity|].
  destruct (closed_stays_silent events (mkSession Closed false false []) eq_refl)
    as [Hs Hc].
  split; assumption.
Qed.

Example stop_while_streaming :
  run (mkSession Idle false false [])
      [ev_start true; ev_signaling_connected; ev_join_sent; ev_join_ack;
       ev_transport_selected; ev_start_transmission_ack; ev_send_control 1;
       ev_stop; ev_keepalive_timeout; ev_fatal_error; ev_stop]
  = (mkSession Closed false false [],
     [SignalingConnecting; SignalingConnected; AwaitingJoinAck; RoomJoined;
      TransportConnecting; Streaming; Closed]).
Proof. reflexivity. Qed.

End SessionFacts.

(* ===================================================================== *)
(** * Further properties of the encoder wrapper *)
(* ===================================================================== *)

Module NvEncMoreFacts.

Import NvEnc Pipeline NvEncViews NvEncRelease Samples.
Import NvEncFacts.

Local Arguments Z.shiftl : simpl never.
Local Arguments Z.lor : simpl never.

Ltac run_all :=
  unfold init, loadNvApi, generateEncodeParams, initBuffers, encodeOneFrame,
         initInputFrame, uninitInputFrame, reconfigure, bind, ret, modify, get, ask,
         log_err, log_info, result, final, trace; simpl.

(** A successful [loadNvApi] made the five loader calls and nothing else. *)
Lemma loadNvApi_success_trace :
  forall drv major minor s h,
    result (loadNvApi drv major minor s h) = true ->
    trace (loadNvApi drv major minor s h) = h ++ load_calls.
Proof.
  intros drv major minor s h. unfold load_calls. run_all.
  split_status; intros Hr; try discriminate Hr.
  rewrite <- ?app_assoc. reflexivity.
Qed.

(** X1.  [loadNvApi] succeeds only after exactly the five loader calls, on
    a driver at least as new as the SDK; on an older driver it fails and
    never calls NvEncodeAPICreateInstance. *)
Theorem loadNvApi_version_gate :
  forall (drv : NvDriver) (major minor : Z) (s : NvD3d11EncoderImpl) (h : History),
    let r := loadNvApi drv major minor s h in
    (result r = true ->
       trace r = h ++ load_calls
       /\ sdk_version major minor <= machine_version drv h
       /\ nvapi_ (final r) = true)
    /\ (machine_version drv h < sdk_version major minor ->
          result r = false
          /\ exists calls, trace r = h ++ calls
                           /\ ~ In Call_NvEncodeAPICreateInstance calls).
Proof.
  intros drv major minor s h. unfold sdk_version, machine_version, load_calls.
  run_all. split.
  - split_status; intros Hr; try discriminate Hr.
    split; [rewrite <- ?app_assoc; reflexivity|].
    split; [apply Z.ltb_ge; assumption | reflexivity].
  - intros Hold. split_status;
      try (match goal with H : (_ <? _) = false |- _ => apply Z.ltb_ge in H; lia end);
      (split; [reflexivity|]);
      rewrite <- ?app_assoc; simpl;
      (eexists; split; [reflexivity|]);
      intros HIn; in_calls HIn.
Qed.

Lemma loadNvApi_version_gate_witness :
  trace (loadNvApi good_driver api_major api_minor fresh_encoder []) = [] ++ load_calls
  /\ result (loadNvApi good_driver 12 2 fresh_encoder []) = false.
Proof.
  split.
  - apply (proj1 (loadNvApi_version_gate good_driver api_major api_minor fresh_encoder [])).
    vm_compute. reflexivity.
  - apply (proj2 (loadNvApi_version_gate good_driver 12 2 fresh_encoder [])).
    vm_compute. reflexivity.
Defined.

(** [loadNvApi] touches nothing but the library handle and the function
    list. *)
Lemma loadNvApi_frame :
  forall drv major minor s h,
    exists loaded funcs,
      final (loadNvApi drv major minor s h) = set_nvfuncs funcs (set_nvapi loaded s).
Proof.
  intros drv major minor s h. run_all.
  split_status; eexists; eexists; reflexivity.
Qed.

(** [generateEncodeParams] makes one call and never fails. *)
Lemma generateEncodeParams_run :
  forall drv params s h,
    let r := generateEncodeParams drv params s h in
    trace r = h ++ [Call_nvEncGetEncodePresetConfig (nvencoder_ s) (helper_codec params)
                      (helper_preset params)]
    /\ final r = set_encode_config (encode_config_ (final r)) s.
Proof. intros drv params s h. run_all. split; reflexivity. Qed.

Lemma initBuffers_run :
  forall drv s h,
    let r := initBuffers drv s h in
    result r = true
    /\ (exists log, trace r = h ++ Call_nvEncCreateBitstreamBuffer (nvencoder_ s) :: log)
    /\ final r = set_bitstream_output_buffer (bitstream_output_buffer_ (final r)) s.
Proof.
  intros drv s h. run_all. split_status; rewrite <- ?app_assoc; simpl;
    (split; [reflexivity|]); (split; [eexists; reflexivity | reflexivity]).
Qed.

Local Arguments loadNvApi : simpl never.

(** The run of a successful [init]. *)
Lemma init_success_run :
  forall (drv : NvDriver) (major minor : Z) (params : VideoEncodeParamsHelper)
         (s : NvD3d11EncoderImpl) (h : History),
    let r := init drv major minor params s h in
    result r = true ->
    exists post,
      trace r =
        h ++ load_calls
          ++ Call_nvEncOpenEncodeSessionEx (d3d11_dev_ s)
          :: Call_nvEncGetEncodePresetConfig (nvencoder_ (final r)) (helper_codec params)
               (helper_preset params)
          :: Call_nvEncInitializeEncoder (nvencoder_ (final r)) (init_params_ (final r))
               (encode_config_ (final r))
          :: post
      /\ nvencoder_ (final r) = snd (on_OpenEncodeSessionEx drv (h ++ load_calls))
      /\ In (Call_nvEncCreateBitstreamBuffer (nvencoder_ (final r))) post
      /\ is_H264 (vp_codec params) && is_10bit (buffer_format_ s) = false.
Proof.
  intros drv major minor params s h.
  unfold init, bind, ret, modify, get, ask, log_err, log_info, result, final, trace. simpl.
  destruct (is_H264 (vp_codec params) && is_10bit (buffer_format_ s)) eqn:Hfmt; simpl;
    [intros Hr; discriminate Hr|].
  set (s0 := set_dims (to_u32 (vp_width params)) (to_u32 (vp_height params))
                      (vp_codec params) s).
  pose proof (loadNvApi_success_trace drv major minor s0 h) as Hload.
  destruct (loadNvApi_frame drv major minor s0 h) as (loaded & funcs & Hframe).
  unfold result, final, trace in Hload, Hframe.
  destruct (loadNvApi drv major minor s0 h) as [[ok s1] h1]. simpl in *.
  destruct ok; simpl; [|intros Hr; discriminate Hr].
  pose proof (Hload eq_refl) as Hh1. subst h1 s1. simpl.
  destruct funcs as [open_set]; destruct open_set; simpl;
    [|intros Hr; discriminate Hr].
  split_if; [|intros Hr; discriminate Hr].
  split_status; intros Hr; try discriminate Hr;
    unfold load_calls; rewrite <- ?app_assoc; simpl;
    (eexists; split; [reflexivity|]);
    (split; [reflexivity|]); (split; [simpl; tauto | reflexivity]).
Qed.

(** X2.  When [init] returns [true], the library was loaded, a session
    was opened on the object's D3D11 device, and that session was
    initialised with exactly the parameters and configuration the object
    keeps afterwards; the handle kept is the one the driver returned. *)
Theorem init_success_opens_and_initialises :
  forall (drv : NvDriver) (major minor : Z) (params : VideoEncodeParamsHelper)
         (s : NvD3d11EncoderImpl) (h : History),
    let r := init drv major minor params s h in
    result r = true ->
    exists post,
      trace r =
        h ++ load_calls
          ++ Call_nvEncOpenEncodeSessionEx (d3d11_dev_ s)
          :: Call_nvEncGetEncodePresetConfig (nvencoder_ (final r)) (helper_codec params)
               (helper_preset params)
          :: Call_nvEncInitializeEncoder (nvencoder_ (final r)) (init_params_ (final r))
               (encode_config_ (final r))
          :: post
      /\ nvencoder_ (final r) = snd (on_OpenEncodeSessionEx drv (h ++ load_calls))
      /\ In (Call_nvEncCreateBitstreamBuffer (nvencoder_ (final r))) post
      /\ is_H264 (vp_codec params) && is_10bit (buffer_format_ s) = false.
Proof.
  intros drv major minor params s h r Hr.
  destruct (init_success_run drv major minor params s h Hr)
    as (post & Htrace & Hhandle & Hbuf & Hfmt).
  exists post. fold r in Htrace, Hhandle, Hbuf.
  split; [exact Htrace|]. split; [exact Hhandle|]. split; [exact Hbuf | exact Hfmt].
Qed.

Lemma init_success_opens_and_initialises_witness :
  exists post,
    trace (init good_driver api_major api_minor sample_params fresh_encoder []) =
      [] ++ load_calls
         ++ Call_nvEncOpenEncodeSessionEx 5
         :: Call_nvEncGetEncodePresetConfig 1001 NV_ENC_CODEC_H264_GUID
              NV_ENC_PRESET_LOW_LATENCY_DEFAULT_GUID
         :: Call_nvEncInitializeEncoder 1001 (init_params_ live_encoder)
              (encode_config_ live_encoder)
         :: post.
Proof.
  destruct (init_success_opens_and_initialises good_driver api_major api_minor
              sample_params fresh_encoder [] eq_refl) as (post & Htr & _).
  exists post. exact Htr.
Defined.

(** X3.  [init] never reads the GOP length or the profile of its
    parameters: changing them changes neither the result, nor the object,
    nor any call made. *)
Theorem init_ignores_gop_and_profile :
  forall (drv : NvDriver) (major minor : Z) (params : VideoEncodeParamsHelper)
         (gop : Z) (profile : Profile) (s : NvD3d11EncoderImpl) (h : History),
    init drv major minor (with_gop_profile gop profile params) s h
    = init drv major minor params s h.
Proof.
  intros drv major minor [w hh c f b qmin qmax vb vi g rc pre pr] gop profile s h.
  reflexivity.
Qed.

(** X4.  Whatever preset configuration the driver hands back,
    [generateEncodeParams] leaves the stored configuration with an
    infinite GOP, no B frames, the rate control mode, bitrates and QP
    bounds of the parameters (both bounds enabled) and the constant QP
    (28, 31, 25); the initialisation parameters carry the object's
    resolution, the requested fps over 1 and picture-type decision on. *)
Theorem generateEncodeParams_overrides_preset :
  forall (drv : NvDriver) (params : VideoEncodeParamsHelper)
         (s : NvD3d11EncoderImpl) (h : History),
    let r := generateEncodeParams drv params s h in
    let cfg := encode_config_ (final r) in
    gopLength cfg = NVENC_INFINITE_GOPLENGTH
    /\ frameIntervalP cfg = 1
    /\ rateControlMode (rcParams cfg) = helper_rc params
    /\ averageBitRate (rcParams cfg) = to_u32 (vp_bitrate params)
    /\ maxBitRate (rcParams cfg) = helper_maxbitrate params
    /\ (enableMinQP (rcParams cfg), minQP (rcParams cfg)) = (true, helper_qmin params)
    /\ (enableMaxQP (rcParams cfg), maxQP (rcParams cfg)) = (true, helper_qmax params)
    /\ constQP (rcParams cfg) = mkQP 28 31 25
    /\ (encodeWidth (result r), encodeHeight (result r)) = (width_ s, height_ s)
    /\ (maxEncodeWidth (result r), maxEncodeHeight (result r)) = (width_ s, height_ s)
    /\ (frameRateNum (result r), frameRateDen (result r)) = (to_u32 (vp_fps params), 1)
    /\ enablePTD (result r) = true
    /\ encodeConfig (result r) = cfg_member.
Proof.
  intros drv params s h. run_all.
  repeat split.
  unfold helper_preset. destruct (vp_preset params); reflexivity.
Qed.

(** The codec member selected by the parameters always asks for an
    infinite IDR period, no reference frames beyond the previous one and
    one slice per picture (slice mode 3, data 1). *)
Lemma generateEncodeParams_codec_member :
  forall drv params s h,
    let cfg := encode_config_ (final (generateEncodeParams drv params s h)) in
    match vp_codec params with
    | H265 =>
        (hevc_idrPeriod (hevcConfig cfg), hevc_maxNumRefFramesInDPB (hevcConfig cfg),
         hevc_sliceMode (hevcConfig cfg), hevc_sliceModeData (hevcConfig cfg))
        = (NVENC_INFINITE_GOPLENGTH, 0, 3, 1)
    | _ =>
        (h264_idrPeriod (h264Config cfg), h264_maxNumRefFrames (h264Config cfg),
         h264_sliceMode (h264Config cfg), h264_sliceModeData (h264Config cfg))
        = (NVENC_INFINITE_GOPLENGTH, 0, 3, 1)
    end.
Proof.
  intros drv params s h. run_all. unfold helper_codec.
  destruct (vp_codec params); reflexivity.
Qed.

(** [init] fixes resolution and codec from its parameters before anything
    can fail, and never touches the buffer format or the device. *)
Lemma init_keeps_dims :
  forall drv major minor params s h,
    let r := init drv major minor params s h in
    width_ (final r) = to_u32 (vp_width params)
    /\ height_ (final r) = to_u32 (vp_height params)
    /\ codec_type_ (final r) = vp_codec params
    /\ buffer_format_ (final r) = buffer_format_ s
    /\ d3d11_dev_ (final r) = d3d11_dev_ s.
Proof.
  intros drv major minor params s h.
  unfold init, bind, ret, modify, get, ask, log_err, log_info, result, final, trace. simpl.
  destruct (is_H264 (vp_codec params) && is_10bit (buffer_format_ s)); simpl;
    [repeat split; reflexivity|].
  set (s0 := set_dims (to_u32 (vp_width params)) (to_u32 (vp_height params))
                      (vp_codec params) s).
  destruct (loadNvApi_frame drv major minor s0 h) as (loaded & funcs & Hframe).
  unfold final in Hframe.
  destruct (loadNvApi drv major minor s0 h) as [[ok s1] h1]. simpl in *. subst s1.
  destruct ok; simpl; [|repeat split; reflexivity].
  destruct funcs as [open_set]; destruct open_set; simpl; [|repeat split; reflexivity].
  split_if; [|repeat split; reflexivity].
  split_status; repeat split; reflexivity.
Qed.

(** X22.  Every picture submitted after a successful [init] goes to the
    session that [init] opened and carries the resolution [init] was
    given and the buffer format of the object, whatever driver answers
    the encode calls. *)
Theorem pictures_carry_init_resolution :
  forall (drv drv' : NvDriver) (major minor : Z) (params : VideoEncodeParamsHelper)
         (s : NvD3d11EncoderImpl) (h h' : History) (input : Z) (iframe : bool),
    let r := init drv major minor params s h in
    result r = true ->
    exists calls,
      trace (encodeOneFrame drv' input iframe (final r) h') = h' ++ calls
      /\ forall enc pic,
           In (Call_nvEncEncodePicture enc pic) calls ->
           enc = snd (on_OpenEncodeSessionEx drv (h ++ load_calls))
           /\ inputWidth pic = to_u32 (vp_width params)
           /\ inputHeight pic = to_u32 (vp_height params)
           /\ bufferFmt pic = buffer_format_ s.
Proof.
  intros drv drv' major minor params s h h' input iframe r Hr.
  destruct (init_success_run drv major minor params s h Hr)
    as (post & _ & Hhandle & _).
  destruct (init_keeps_dims drv major minor params s h) as (Hw & Hh & _ & Hfmt & _).
  fold r in Hhandle, Hw, Hh, Hfmt.
  destruct (encodeOneFrame_submits drv' input iframe (final r) h')
    as (calls & Htr & Honly & _).
  exists calls. split; [exact Htr|].
  intros enc pic Hin. destruct (Honly enc pic Hin) as [-> ->].
  unfold submitted_picture. cbn [inputWidth inputHeight bufferFmt].
  rewrite Hhandle, Hw, Hh, Hfmt. repeat split; reflexivity.
Qed.

Lemma pictures_carry_init_resolution_witness :
  exists calls,
    trace (encodeOneFrame good_driver 9 false
             (final (init good_driver api_major api_minor sample_params fresh_encoder []))
             []) = [] ++ calls
    /\ forall enc pic,
         In (Call_nvEncEncodePicture enc pic) calls ->
         enc = 1001 /\ inputWidth pic = 1920 /\ inputHeight pic = 1080
         /\ bufferFmt pic = NV_ENC_BUFFER_FORMAT_ARGB.
Proof.
  exact (pictures_carry_init_resolution good_driver good_driver api_major api_minor
           sample_params fresh_encoder [] [] 9 false eq_refl).
Defined.

(** ** Reconfiguration *)

(** X5.  Storing a request is idempotent, and a request for bitrate and
    fps leaves the same object as a bitrate request followed by an fps
    request, whatever the driver answers in between. *)
Theorem reconfigure_idempotent_and_splits :
  forall (d1 d2 d3 : NvDriver) (p : ReconfigureParams) (s : NvD3d11EncoderImpl)
         (h h' h'' : History),
    final (reconfigure d2 p (final (reconfigure d1 p s h)) h') = final (reconfigure d1 p s h)
    /\ final (reconfigure d2 (mkReconf None (fps p))
                (final (reconfigure d1 (mkReconf (bitrate_bps p) None) s h)) h')
       = final (reconfigure d3 p s h'').
Proof.
  intros d1 d2 d3 [[b|] [f|]] s h h' h''; run_enc; split_status; split; reflexivity.
Qed.

Lemma reconfigure_without_rates :
  forall drv p s h, without_rates (final (reconfigure drv p s h)) = without_rates s.
Proof. intros drv [[b|] [f|]] s h; run_enc; split_status; reflexivity. Qed.

Lemma reconfigure_call_count :
  forall drv p s h,
    exists calls,
      trace (reconfigure drv p s h) = h ++ calls
      /\ List.length (filter is_reconfigure_call calls)
         = if has_value (bitrate_bps p) || has_value (fps p) then 1%nat else 0%nat.
Proof.
  intros drv p s h.
  destruct (reconfigure_effect drv p s h) as (_ & _ & _ & _ & _ & _ & _ & _ & Ht).
  rewrite Ht. eexists. split; [reflexivity|].
  unfold reconfigure_calls.
  destruct (has_value (bitrate_bps p) || has_value (fps p)); simpl; [|reflexivity].
  destruct (succeeded (on_ReconfigureEncoder drv h)); reflexivity.
Qed.

(** X6.  No sequence of reconfigure requests changes anything of the
    encoder object besides the two bitrates and the frame rate numerator:
    with these three blanked, the object after the calls is the object
    before them, member for member (library and function list, device,
    session handle, resolution, codec, buffers, event, every other
    initialize parameter, every other rate control member, GOP and codec
    members).  The driver is asked to reconfigure exactly once per
    request that carries a bitrate or an fps. *)
Theorem reconfigure_each_changes_rates_only :
  forall (drv : NvDriver) (reqs : list ReconfigureParams) (s : NvD3d11EncoderImpl)
         (h : History),
    let r := reconfigure_each drv reqs s h in
    without_rates (final r) = without_rates s
    /\ exists calls,
         trace r = h ++ calls
         /\ List.length (filter is_reconfigure_call calls)
            = List.length (filter carries_change reqs).
Proof.
  intros drv reqs. induction reqs as [|p rest IH]; intros s h; cbv zeta.
  - split; [reflexivity|]. exists []. rewrite app_nil_r. split; reflexivity.
  - rewrite reconfigure_each_cons.
    destruct (IH (final (reconfigure drv p s h))
                 (trace (reconfigure drv p s h)))
      as (Hfix & calls & Htr & Hcount).
    destruct (reconfigure_call_count drv p s h) as (c1 & Htr1 & Hc1).
    split.
    + rewrite Hfix. apply reconfigure_without_rates.
    + exists (c1 ++ calls). rewrite Htr, Htr1, app_assoc. split; [reflexivity|].
      rewrite filter_app, length_app, Hc1, Hcount. simpl filter. unfold carries_change.
      destruct (has_value (bitrate_bps p) || has_value (fps p));
        reflexivity.
Qed.

(** Blanking the three rates does not hide any other member: two objects
    that agree after blanking agree on each of them. *)
Lemma without_rates_keeps_members :
  forall s s',
    without_rates s = without_rates s' ->
    nvapi_ s = nvapi_ s' /\ nvfuncs_ s = nvfuncs_ s'
    /\ darWidth (init_params_ s) = darWidth (init_params_ s')
    /\ darHeight (init_params_ s) = darHeight (init_params_ s')
    /\ frameRateDen (init_params_ s) = frameRateDen (init_params_ s')
    /\ enableEncodeAsync (init_params_ s) = enableEncodeAsync (init_params_ s')
    /\ enablePTD (init_params_ s) = enablePTD (init_params_ s')
    /\ reportSliceOffsets (init_params_ s) = reportSliceOffsets (init_params_ s')
    /\ enableSubFrameWrite (init_params_ s) = enableSubFrameWrite (init_params_ s')
    /\ encodeConfig (init_params_ s) = encodeConfig (init_params_ s')
    /\ vbvBufferSize (rcParams (encode_config_ s)) = vbvBufferSize (rcParams (encode_config_ s'))
    /\ vbvInitialDelay (rcParams (encode_config_ s))
       = vbvInitialDelay (rcParams (encode_config_ s'))
    /\ enableMinQP (rcParams (encode_config_ s)) = enableMinQP (rcParams (encode_config_ s'))
    /\ enableMaxQP (rcParams (encode_config_ s)) = enableMaxQP (rcParams (encode_config_ s'))
    /\ minQP (rcParams (encode_config_ s)) = minQP (rcParams (encode_config_ s'))
    /\ maxQP (rcParams (encode_config_ s)) = maxQP (rcParams (encode_config_ s'))
    /\ width_ s = width_ s' /\ height_ s = height_ s'
    /\ nvencoder_ s = nvencoder_ s'
    /\ bitstream_output_buffer_ s = bitstream_output_buffer_ s'.
Proof.
  intros s s' H.
  pose proof (f_equal nvapi_ H) as H1.
  pose proof (f_equal nvfuncs_ H) as H2.
  pose proof (f_equal init_params_ H) as H3.
  pose proof (f_equal encode_config_ H) as H4.
  pose proof (f_equal width_ H) as H5.
  pose proof (f_equal height_ H) as H6.
  pose proof (f_equal nvencoder_ H) as H7.
  pose proof (f_equal bitstream_output_buffer_ H) as H8.
  unfold without_rates in H1, H2, H3, H4, H5, H6, H7, H8.
  simpl in H1, H2, H3, H4, H5, H6, H7, H8.
  unfold init_set_frameRateNum in H3. unfold cfg_set_rc, rc_set_bitrate in H4.
  inversion H3. inversion H4.
  repeat split; assumption.
Qed.

(** ** Encoding *)

(** X7.  [encodeOneFrame] never changes the encoder object; when it
    returns a frame, the payload is what the driver handed over at
    [nvEncLockBitstream], and that call was followed at once by
    [nvEncUnlockBitstream] on the same buffer and by
    [nvEncUnmapInputResource], which is given the address of the map
    structure of the frame (the registered handle and the mapped handle
    that was submitted as input buffer), not the mapped handle. *)
Theorem encodeOneFrame_returns_locked_bitstream :
  forall (drv : NvDriver) (input : Z) (iframe : bool) (s : NvD3d11EncoderImpl)
         (h : History),
    let r := encodeOneFrame drv input iframe s h in
    final r = s
    /\ mappedResource (mapped_input drv input s h)
       = inputBuffer (submitted_picture drv input iframe s h)
    /\ registeredResource (mapped_input drv input s h) = snd (on_RegisterResource drv h)
    /\ forall f, result r = Some f ->
         exists h1 h2,
           trace r =
             h1 ++ Call_nvEncLockBitstream (nvencoder_ s) (bitstream_output_buffer_ s)
                :: Call_nvEncUnlockBitstream (nvencoder_ s) (bitstream_output_buffer_ s)
                :: Call_nvEncUnmapInputResource (nvencoder_ s) (mapped_input drv input s h)
                :: h2
           /\ frame f = snd (on_LockBitstream drv h1).
Proof.
  intros drv input iframe s h. unfold submitted_picture, mapped_input. run_encode.
  destruct (succeeded (fst (on_RegisterResource drv h))) eqn:Hreg; simpl;
    [destruct (succeeded (fst (on_MapInputResource drv
               (h ++ [Call_nvEncRegisterResource (nvencoder_ s) input])))) eqn:Hmap; simpl|];
    split_status; (split; [reflexivity|]); (split; [reflexivity|]);
    (split; [reflexivity|]);
    intros f Hf; try discriminate Hf;
    inversion Hf; subst; clear Hf; simpl;
    eexists; eexists; (split; [|reflexivity]);
    rewrite <- ?app_assoc; simpl; reflexivity.
Qed.

Lemma encodeOneFrame_returns_locked_bitstream_witness :
  exists f, result (encodeOneFrame good_driver 9 false live_encoder []) = Some f
            /\ frame f = [0; 0; 0; 1; 101].
Proof.
  exists (mkFrame [0; 0; 0; 1; 101] true). split; [reflexivity|].
  destruct (proj2 (proj2 (proj2 (encodeOneFrame_returns_locked_bitstream good_driver 9 false
                     live_encoder [])))
              (mkFrame [0; 0; 0; 1; 101] true) eq_refl) as (h1 & h2 & _ & Hf).
  rewrite Hf. reflexivity.
Defined.

(** The calls of one successful [encodeOneFrame] on the accepting driver:
    the unmap call carries the map structure (3003, 4004). *)
Example encodeOneFrame_calls_sample :
  trace (encodeOneFrame good_driver 9 false live_encoder [])
  = [Call_nvEncRegisterResource 1001 9;
     Call_nvEncMapInputResource 1001 3003;
     Call_nvEncEncodePicture 1001
       (submitted_picture good_driver 9 false live_encoder []);
     Call_nvEncLockBitstream 1001 2002;
     Call_nvEncUnlockBitstream 1001 2002;
     Call_nvEncUnmapInputResource 1001 (mkMapped 3003 4004);
     Call_nvEncUnregisterResource 1001 3003;
     Call_nvEncGetEncodeStats 1001 2002].
Proof. reflexivity. Qed.

(** X8.  A call that returns no frame either never unmapped the input
    or failed in the unmap or unregister step itself: when registering,
    mapping, encoding, waiting, locking or unlocking fails, the function
    returns without calling [nvEncUnmapInputResource]. *)
Theorem encodeOneFrame_failure_skips_unmap :
  forall (drv : NvDriver) (input : Z) (iframe : bool) (s : NvD3d11EncoderImpl)
         (h : History),
    let r := encodeOneFrame drv input iframe s h in
    result r = None ->
    exists calls,
      trace r = h ++ calls
      /\ (existsb is_unmap_call calls = false
          \/ In (LOG_ERR "nvEncUnmapInputResource failed") calls
          \/ In (LOG_ERR "nvEncUnregisterResource failed") calls).
Proof.
  intros drv input iframe s h. run_encode.
  destruct (succeeded (fst (on_RegisterResource drv h))) eqn:Hreg; simpl;
    [destruct (succeeded (fst (on_MapInputResource drv
               (h ++ [Call_nvEncRegisterResource (nvencoder_ s) input])))) eqn:Hmap; simpl|];
    split_status; intros Hr; try discriminate Hr;
    (eexists; split; [rewrite <- ?app_assoc; simpl; reflexivity|]);
    simpl; tauto.
Qed.

(** A driver that refuses the picture: the input stays mapped. *)
Lemma encodeOneFrame_failure_skips_unmap_witness :
  exists calls,
    trace (encodeOneFrame driver_rejecting_pictures 9 true live_encoder []) = [] ++ calls
    /\ (existsb is_unmap_call calls = false
        \/ In (LOG_ERR "nvEncUnmapInputResource failed") calls
        \/ In (LOG_ERR "nvEncUnregisterResource failed") calls).
Proof.
  apply (encodeOneFrame_failure_skips_unmap driver_rejecting_pictures 9 true
           live_encoder []).
  reflexivity.
Defined.

Example rejected_picture_leaves_input_mapped :
  encodeOneFrame driver_rejecting_pictures 9 true live_encoder []
  = (None, live_encoder,
     [Call_nvEncRegisterResource 1001 9; Call_nvEncMapInputResource 1001 3003;
      Call_nvEncEncodePicture 1001
        (submitted_picture driver_rejecting_pictures 9 true live_encoder []);
      LOG_ERR "nvEncEncodePicture failed"]).
Proof. vm_compute. reflexivity. Qed.

(** ** Teardown *)

(** The run of [releaseResources], by cases on event, session and buffer. *)
Lemma releaseResources_run :
  forall s : NvD3d11EncoderImpl,
    let r := releaseResources s in
    nvencoder_ (fst r) = 0
    /\ event_ (fst r) = 0
    /\ releaseResources (fst r) = (fst r, [])
    /\ (nvencoder_ s <> 0 ->
          exists pre,
            snd r = pre ++ [Call_nvEncDestroyEncoder (nvencoder_ s)]
            /\ filter is_DestroyEncoder pre = []
            /\ (bitstream_output_buffer_ s <> 0 ->
                  In (Call_nvEncDestroyBitstreamBuffer (nvencoder_ s)
                        (bitstream_output_buffer_ s)) pre))
    /\ (nvencoder_ s = 0 ->
          forall c, In c (snd r) ->
            c = Call_nvEncUnregisterAsyncEvent 0 (event_ s) \/ c = Call_CloseHandle (event_ s)).
Proof.
  intros [dev w hh c api fn enc fmt ip cfg buf ev asy].
  unfold releaseResources. simpl.
  destruct (Z.eqb_spec ev 0) as [He|He]; simpl;
    destruct (Z.eqb_spec enc 0) as [Hn|Hn]; simpl;
    destruct (Z.eqb_spec buf 0) as [Hb|Hb]; subst; simpl;
    (split; [reflexivity|]); (split; [reflexivity|]); (split; [reflexivity|]);
    (split;
     [ intros Hne; try (exfalso; apply Hne; reflexivity);
       match goal with
       | |- exists pre, [?a] = _ /\ _ => exists []
       | |- exists pre, [?a; ?b] = _ /\ _ => exists [a]
       | |- exists pre, [?a; ?b; ?c] = _ /\ _ => exists [a; b]
       | |- exists pre, [?a; ?b; ?c; ?d] = _ /\ _ => exists [a; b; c]
       end;
       (split; [reflexivity|]); (split; [reflexivity|]);
       intros Hnb; try (exfalso; apply Hnb; reflexivity); simpl; tauto
     | intros Hz; try (exfalso; apply Hn; exact Hz);
       intros c' Hc; simpl in Hc; intuition auto ]).
Qed.

(** X9.  After [releaseResources] the session handle and the event are
    null and a second call does nothing.  With a live session the call
    ends with the one and only [nvEncDestroyEncoder], on that session,
    preceded by the destruction of the bitstream buffer if there is one;
    without a session nothing is destroyed. *)
Theorem releaseResources_once :
  forall s : NvD3d11EncoderImpl,
    let r := releaseResources s in
    nvencoder_ (fst r) = 0
    /\ event_ (fst r) = 0
    /\ releaseResources (fst r) = (fst r, [])
    /\ (nvencoder_ s <> 0 ->
          exists pre,
            snd r = pre ++ [Call_nvEncDestroyEncoder (nvencoder_ s)]
            /\ filter is_DestroyEncoder pre = []
            /\ (bitstream_output_buffer_ s <> 0 ->
                  In (Call_nvEncDestroyBitstreamBuffer (nvencoder_ s)
                        (bitstream_output_buffer_ s)) pre))
    /\ (nvencoder_ s = 0 ->
          forall c, In c (snd r) ->
            c = Call_nvEncUnregisterAsyncEvent 0 (event_ s) \/ c = Call_CloseHandle (event_ s)).
Proof.
  intros s r.
  destruct (releaseResources_run s) as (Hn & He & Hagain & Hlive & Hnone).
  fold r in Hn, He, Hagain, Hlive, Hnone.
  split; [exact Hn|]. split; [exact He|]. split; [exact Hagain|].
  split; [exact Hlive | exact Hnone].
Qed.

Lemma releaseResources_once_witness :
  exists pre,
    snd (releaseResources live_encoder) = pre ++ [Call_nvEncDestroyEncoder 1001]
    /\ filter is_DestroyEncoder pre = []
    /\ In (Call_nvEncDestroyBitstreamBuffer 1001 2002) pre.
Proof.
  destruct (releaseResources_once live_encoder) as (_ & _ & _ & Hlive & _).
  destruct Hlive as (pre & Hcalls & Hnone & Hbuf); [discriminate|].
  exists pre. split; [exact Hcalls|]. split; [exact Hnone|].
  apply Hbuf. discriminate.
Defined.

(** X10.  A session that [init] opened successfully is the one
    [releaseResources] destroys: the teardown of the initialised object
    ends with [nvEncDestroyEncoder] on the handle the driver returned
    when the session was opened (provided that handle is not null). *)
Theorem init_then_release_destroys_session :
  forall (drv : NvDriver) (major minor : Z) (params : VideoEncodeParamsHelper)
         (s : NvD3d11EncoderImpl) (h : History),
    let r := init drv major minor params s h in
    let handle := snd (on_OpenEncodeSessionEx drv (h ++ load_calls)) in
    result r = true ->
    handle <> 0 ->
    exists pre,
      snd (releaseResources (final r)) = pre ++ [Call_nvEncDestroyEncoder handle]
      /\ filter is_DestroyEncoder pre = []
      /\ nvencoder_ (fst (releaseResources (final r))) = 0.
Proof.
  intros drv major minor params s h r handle Hr Hh.
  destruct (init_success_run drv major minor params s h Hr)
    as (post & _ & Hhandle & _).
  fold r in Hhandle. fold handle in Hhandle.
  destruct (releaseResources_run (final r)) as (Hnull & _ & _ & Hlive & _).
  rewrite Hhandle in Hlive.
  destruct (Hlive Hh) as (pre & Hcalls & Hnone & _).
  exists pre. repeat split; assumption.
Qed.

Lemma init_then_release_destroys_session_witness :
  exists pre,
    snd (releaseResources
           (final (init good_driver api_major api_minor sample_params fresh_encoder [])))
    = pre ++ [Call_nvEncDestroyEncoder 1001]
    /\ filter is_DestroyEncoder pre = [].
Proof.
  destruct (init_then_release_destroys_session good_driver api_major api_minor
              sample_params fresh_encoder [] eq_refl) as (pre & Hc & Hn & _).
  - vm_compute. discriminate.
  - exists pre. split; assumption.
Defined.

End NvEncMoreFacts.

(* ===================================================================== *)
(** * Properties of the service manager over event sequences *)
(* ===================================================================== *)

Module ServiceRepliesFacts.

Import ServiceMgr ServiceReplies.

Lemma handle_all_app :
  forall ev1 ev2 m,
    let o1 := handle_all m ev1 in
    let o2 := handle_all (manager o1) ev2 in
    handle_all m (ev1 ++ ev2)
    = mkOutcome (manager o2) (callbacks o1 ++ callbacks o2) (sends o1 ++ sends o2).
Proof.
  induction ev1 as [|e rest IH]; intros ev2 m; cbv zeta.
  - simpl. destruct (handle_all m ev2); reflexivity.
  - simpl. rewrite IH. cbv zeta. simpl. rewrite <- !app_assoc. reflexivity.
Qed.

(** The descriptor kept is the one of the last accept, or UINT32_MAX once
    the pipe was disconnected; messages never change it. *)
Lemma manager_tracks_current_fd :
  forall events m, fd_ (manager (handle_all m events)) = current_fd (fd_ m) events.
Proof.
  induction events as [|e rest IH]; intros m; simpl.
  - reflexivity.
  - destruct e as [fd|fd|fd msg|d r|body]; simpl; rewrite IH; try reflexivity.
    destruct msg as [d|b|d|b|st|t]; try reflexivity.
    simpl. unfold onServiceStatus. destruct (is_Success st); reflexivity.
Qed.

(** X11.  After any sequence of pipe and GUI events, the answer to a
    connection request is one ConfirmConnectionAck, sent to the
    descriptor of the latest accept (UINT32_MAX if the pipe was
    disconnected since), carrying the device id it was given, and it is
    a Reject unless the user chose Accept or AcceptWithNextTime. *)
Theorem confirm_ack_goes_to_current_pipe :
  forall (events : list ManagerEvent) (m : ServiceManager) (device_id : Z)
         (result : ConfirmResult),
    exists ack,
      sends (handle_all m (events ++ [UserConfirmedConnection device_id result]))
      = sends (handle_all m events)
        ++ [send_ConfirmConnectionAck (current_fd (fd_ m) events) ack]
      /\ ack_device_id ack = device_id
      /\ (ack_result ack = ConfirmResult_Reject <->
          result <> Accept /\ result <> AcceptWithNextTime)
      /\ callbacks (handle_all m (events ++ [UserConfirmedConnection device_id result]))
         = callbacks (handle_all m events).
Proof.
  intros events m device_id result.
  rewrite handle_all_app. cbv zeta. simpl.
  rewrite manager_tracks_current_fd, !app_nil_r.
  eexists. split; [reflexivity|]. split; [reflexivity|]. split; [|reflexivity].
  destruct result; simpl; split; intros H;
    try discriminate H; try reflexivity;
    try (split; discriminate);
    destruct H as [H1 H2]; exfalso; try (apply H1; reflexivity); apply H2; reflexivity.
Qed.

Lemma count_app :
  forall (A : Type) (f : A -> bool) (l1 l2 : list A),
    List.length (filter f (l1 ++ l2))
    = (List.length (filter f l1) + List.length (filter f l2))%nat.
Proof. intros A f l1 l2. rewrite filter_app, length_app. reflexivity. Qed.

(** X12.  Over any sequence of events the UI is told [Down] exactly once
    per pipe disconnection and [Up] exactly once per ServiceStatus
    message (whatever its code), and nothing else produces a service
    status. *)
Theorem service_status_callbacks_counted :
  forall (events : list ManagerEvent) (m : ServiceManager),
    let o := handle_all m events in
    List.length (filter is_Down (callbacks o)) = List.length (filter is_disconnect events)
    /\ List.length (filter is_Up (callbacks o))
       = List.length (filter is_service_status events).
Proof.
  induction events as [|e rest IH]; intros m; cbv zeta.
  - split; reflexivity.
  - simpl handle_all. simpl callbacks. rewrite !count_app.
    destruct (IH (fst (fst (handle m e)))) as [IHd IHu]. rewrite IHd, IHu.
    destruct e as [fd|fd|fd msg|d r|body]; simpl; try (split; reflexivity).
    destruct msg as [d|b|d|b|st|t]; simpl; try (split; reflexivity).
    unfold onServiceStatus. destruct (is_Success st); split; reflexivity.
Qed.

End ServiceRepliesFacts.

(* ===================================================================== *)
(** * Further properties of the input replay *)
(* ===================================================================== *)

Module SendInputMoreFacts.

Import SendInput SendInputViews Samples.
Import SendInputFacts.

(** X13.  Pressing and releasing a mapped key inject the same virtual
    key and the same hardware scan code; the two inputs differ only in
    KEYEVENTF_KEYUP.  The SCANCODE and EXTENDEDKEY flags are those of
    the table entry, and a key translated without scan code carries
    scan code 0. *)
Theorem key_press_and_release_pair_up :
  forall (E : ScancodeEnum) (MapVirtualKeyW : Z -> Z) (k : Z),
    has_entry E k = true ->
    exists ki,
      onKeyboardEvent E MapVirtualKeyW (mkKeyboard k true) = [INPUT_KEYBOARD ki]
      /\ onKeyboardEvent E MapVirtualKeyW (mkKeyboard k false)
         = [INPUT_KEYBOARD (mkKi (wVk ki) (wScan ki)
                              (Z.lor (ki_dwFlags ki) KEYEVENTF_KEYUP) (ki_time ki))]
      /\ Z.testbit (ki_dwFlags ki) 1 = false
      /\ Z.testbit (ki_dwFlags ki) 3 = use_scancode (scancode_to_winkey E k)
      /\ Z.testbit (ki_dwFlags ki) 0 = extented (scancode_to_winkey E k)
      /\ (use_scancode (scancode_to_winkey E k) = false -> wScan ki = 0).
Proof.
  intros E Map k Hk. unfold onKeyboardEvent. simpl.
  rewrite (valid_iff_has_entry E k), Hk. simpl.
  eexists. split; [reflexivity|]. simpl.
  destruct (use_scancode (scancode_to_winkey E k)),
           (extented (scancode_to_winkey E k));
    repeat split; try reflexivity; intros H; discriminate H.
Qed.

Lemma key_press_and_release_pair_up_witness :
  exists ki,
    onKeyboardEvent usb_hid_scancodes (fun vk => vk - 35) (mkKeyboard 4 true)
    = [INPUT_KEYBOARD ki]
    /\ onKeyboardEvent usb_hid_scancodes (fun vk => vk - 35) (mkKeyboard 4 false)
       = [INPUT_KEYBOARD (mkKi (wVk ki) (wScan ki)
                            (Z.lor (ki_dwFlags ki) KEYEVENTF_KEYUP) (ki_time ki))].
Proof.
  destruct (key_press_and_release_pair_up usb_hid_scancodes (fun vk => vk - 35) 4 eq_refl)
    as (ki & Hd & Hu & _).
  exists ki. split; assumption.
Defined.

Lemma switch_on_Forall :
  forall (P : WinKey -> Prop) scancode cases k,
    Forall (fun c => P (snd c)) cases ->
    switch_on scancode cases = Some k -> P k.
Proof.
  intros P scancode cases k Hall. induction Hall as [|[label k'] rest Hk _ IH]; simpl.
  - discriminate.
  - destruct (scancode =? label); [intros Heq; injection Heq as <-; exact Hk | exact IH].
Qed.

Lemma switch_cases_keys_in_range :
  forall E, Forall (fun c => 8 <= win_key (snd c) <= 222) (switch_cases E).
Proof.
  intros E. unfold switch_cases.
  repeat (constructor; [simpl; unfold VK_DECIMAL, VK_RETURN, VK_ESCAPE, VK_BACK, VK_TAB,
    VK_SPACE, VK_OEM_MINUS, VK_OEM_PLUS, VK_OEM_4, VK_OEM_6, VK_OEM_5, VK_OEM_1, VK_OEM_7,
    VK_OEM_3, VK_OEM_COMMA, VK_OEM_PERIOD, VK_OEM_2, VK_CAPITAL, VK_SNAPSHOT, VK_SCROLL,
    VK_PAUSE, VK_INSERT, VK_HOME, VK_PRIOR, VK_DELETE, VK_END, VK_NEXT, VK_RIGHT, VK_LEFT,
    VK_DOWN, VK_UP, VK_NUMLOCK, VK_DIVIDE, VK_MULTIPLY, VK_SUBTRACT, VK_ADD, VK_NUMPAD0,
    VK_LCONTROL, VK_LSHIFT, VK_LMENU, VK_LWIN, VK_RCONTROL, VK_RSHIFT, VK_RMENU, VK_RWIN,
    VK_APPS; lia|]).
  constructor.
Qed.

(** X14.  When the four ranges of the scancode enumeration are
    consecutive, every mapped scancode is translated to a virtual key
    between 8 and 222 (so it fits the one-byte virtual-key space without
    wrapping); letters land on 'A'..'Z', the digits on '1'..'9' and '0',
    F1..F12 on VK_F1..VK_F12 and keypad 1..9 on VK_NUMPAD1..VK_NUMPAD9,
    each at its offset in the range. *)
Theorem mapped_keys_are_virtual_keys :
  forall (E : ScancodeEnum),
    consecutive_ranges E ->
    forall sc : Z,
      has_entry E sc = true ->
      let vk := win_key (scancode_to_winkey E sc) in
      8 <= vk <= 222
      /\ (SCANCODE_A E <= sc <= SCANCODE_Z E -> vk = 65 + (sc - SCANCODE_A E))
      /\ (~ (SCANCODE_A E <= sc <= SCANCODE_Z E) ->
          SCANCODE_1 E <= sc < SCANCODE_0 E -> vk = 49 + (sc - SCANCODE_1 E)).
Proof.
  intros E (HZ & H0 & HF & HK) sc Hent. cbv zeta.
  rewrite <- valid_iff_has_entry in Hent.
  unfold scancode_to_winkey in *. unfold to_u16, VK_F1, VK_NUMPAD1 in *.
  destruct ((SCANCODE_A E <=? sc) && (sc <=? SCANCODE_Z E)) eqn:HA.
  { apply andb_true_iff in HA. destruct HA as [Ha Hb].
    apply Z.leb_le in Ha. apply Z.leb_le in Hb. cbn [win_key].
    rewrite Z.mod_small by lia. repeat split; lia. }
  apply andb_false_iff in HA.
  destruct ((SCANCODE_1 E <=? sc) && (sc <? SCANCODE_0 E)) eqn:H1.
  { apply andb_true_iff in H1. destruct H1 as [Ha Hb].
    apply Z.leb_le in Ha. apply Z.ltb_lt in Hb. cbn [win_key].
    rewrite Z.mod_small by lia.
    repeat split; try lia;
      intros [Hx Hy]; destruct HA as [HA|HA]; apply Z.leb_gt in HA; lia. }
  apply andb_false_iff in H1.
  assert (Hnot : ~ (SCANCODE_A E <= sc <= SCANCODE_Z E)
                 /\ ~ (SCANCODE_1 E <= sc < SCANCODE_0 E)).
  { split; intros [Hx Hy].
    - destruct HA as [HA|HA]; apply Z.leb_gt in HA; lia.
    - destruct H1 as [H1|H1]; [apply Z.leb_gt in H1 | apply Z.ltb_ge in H1]; lia. }
  destruct Hnot as [HnA Hn1].
  destruct (sc =? SCANCODE_0 E) eqn:Hz.
  { cbn [win_key]. repeat split; try lia; intros; contradiction. }
  destruct ((SCANCODE_F1 E <=? sc) && (sc <=? SCANCODE_F12 E)) eqn:Hf.
  { apply andb_true_iff in Hf. destruct Hf as [Ha Hb].
    apply Z.leb_le in Ha. apply Z.leb_le in Hb. cbn [win_key].
    rewrite Z.mod_small by lia. repeat split; try lia; intros; contradiction. }
  destruct ((SCANCODE_KP_1 E <=? sc) && (sc <=? SCANCODE_KP_9 E)) eqn:Hkp.
  { apply andb_true_iff in Hkp. destruct Hkp as [Ha Hb].
    apply Z.leb_le in Ha. apply Z.leb_le in Hb. cbn [win_key].
    rewrite Z.mod_small by lia. repeat split; try lia; intros; contradiction. }
  destruct (switch_on sc (switch_cases E)) as [k|] eqn:Hsw.
  - split; [|split; intros; contradiction].
    apply (switch_on_Forall (fun k => 8 <= win_key k <= 222) sc (switch_cases E) k
             (switch_cases_keys_in_range E) Hsw).
  - simpl in Hent. discriminate Hent.
Qed.

Lemma usb_hid_consecutive : consecutive_ranges usb_hid_scancodes.
Proof. repeat split. Qed.

Lemma mapped_keys_are_virtual_keys_witness :
  8 <= win_key (scancode_to_winkey usb_hid_scancodes 29) <= 222
  /\ win_key (scancode_to_winkey usb_hid_scancodes 29) = 65 + (29 - 4).
Proof.
  destruct (mapped_keys_are_virtual_keys usb_hid_scancodes usb_hid_consecutive 29 eq_refl)
    as (Hr & Hl & _).
  split; [exact Hr | apply Hl; simpl; lia].
Defined.

(** ** Mouse *)

(** In absolute mode the deltas are never read, in relative mode the
    position is never read. *)
Lemma mouse_modes_do_not_mix :
  forall kf px py px' py' ddx ddy ddx' ddy' dz,
    onMouseEvent true (mkMouse kf px py ddx ddy dz)
    = onMouseEvent true (mkMouse kf px py ddx' ddy' dz)
    /\ onMouseEvent false (mkMouse kf px py ddx ddy dz)
       = onMouseEvent false (mkMouse kf px' py' ddx ddy dz).
Proof. intros. split; reflexivity. Qed.

(** X15.  Every mouse message, even an empty one, injects exactly one
    mouse input with time stamp 0.  MOVE is set exactly when the message
    has no wheel delta and carries motion for the current mode (a
    position in absolute mode, a delta in relative mode); ABSOLUTE is set
    exactly when, in addition, the mode is absolute; without motion for
    the current mode dx and dy are 0. *)
Theorem mouse_motion_flags :
  forall (absolute : bool) (ev : MouseEvent),
    exists mi,
      onMouseEvent absolute ev = [INPUT_MOUSE mi]
      /\ mi_time mi = 0
      /\ Z.testbit (mi_dwFlags mi) 0
         = negb (has (delta_z ev)) && carries_motion absolute ev
      /\ Z.testbit (mi_dwFlags mi) 15
         = absolute && negb (has (delta_z ev)) && carries_motion absolute ev
      /\ (carries_motion absolute ev = false -> dx mi = 0 /\ dy mi = 0).
Proof.
  intros absolute [kf px py ddx ddy dz]. unfold onMouseEvent, carries_motion.
  eexists. split; [reflexivity|]. cbn [key_falg x y delta_x delta_y delta_z].
  split; [reflexivity|].
  destruct kf as [[| | | | | | | | | |raw]|];
    (destruct absolute;
     [ destruct px as [px|], py as [py|] | destruct ddx as [ddx|], ddy as [ddy|] ]);
    destruct dz as [dz|];
    cbn [has orb andb negb button_flags mi_dwFlags dx dy mouseData mi_time];
    (split; [reflexivity|]); (split; [reflexivity|]);
    intros Hm; try discriminate Hm; split; reflexivity.
Qed.

Lemma mouse_motion_flags_witness :
  exists mi,
    onMouseEvent true (mkMouse (Some RightDown) None None (Some 4) (Some 5) None)
    = [INPUT_MOUSE mi]
    /\ dx mi = 0 /\ dy mi = 0.
Proof.
  destruct (mouse_motion_flags true
              (mkMouse (Some RightDown) None None (Some 4) (Some 5) None))
    as (mi & Hev & _ & _ & _ & Hstill).
  exists mi. split; [exact Hev|]. apply Hstill. reflexivity.
Defined.

Lemma to_i32_to_u32 : forall z, to_i32 (to_u32 z) = to_i32 z.
Proof.
  intros z. unfold to_i32, to_u32.
  rewrite Zplus_mod_idemp_l. reflexivity.
Qed.

Lemma to_i32_idempotent : forall z, to_i32 (to_i32 z) = to_i32 z.
Proof.
  intros z. unfold to_i32.
  replace ((z + 2 ^ 31) mod 2 ^ 32 - 2 ^ 31 + 2 ^ 31) with ((z + 2 ^ 31) mod 2 ^ 32) by lia.
  rewrite Zmod_mod. reflexivity.
Qed.

(** X16.  A message with a wheel delta injects a pure wheel input: the
    flags are exactly MOUSEEVENTF_WHEEL whatever buttons, position or
    deltas came with it, and [mouseData] is the delta as a DWORD, which
    read back as a signed 32-bit number is the delta again. *)
Theorem wheel_message_is_pure_wheel :
  forall (absolute : bool) (ev : MouseEvent) (z : Z),
    delta_z ev = Some z ->
    exists mi,
      onMouseEvent absolute ev = [INPUT_MOUSE mi]
      /\ mi_dwFlags mi = MOUSEEVENTF_WHEEL
      /\ 0 <= mouseData mi < 2 ^ 32
      /\ to_i32 (mouseData mi) = to_i32 z.
Proof.
  intros absolute ev z Hz. unfold onMouseEvent. rewrite Hz.
  cbn [has get_int32]. eexists. split; [reflexivity|].
  cbn [mi_dwFlags mouseData]. split; [reflexivity|]. split.
  - apply Z.mod_pos_bound. reflexivity.
  - rewrite to_i32_to_u32. apply to_i32_idempotent.
Qed.

Lemma wheel_message_is_pure_wheel_witness :
  exists mi,
    onMouseEvent false (mkMouse (Some LeftDown) None None (Some 1) None (Some (-120)))
    = [INPUT_MOUSE mi]
    /\ mi_dwFlags mi = MOUSEEVENTF_WHEEL
    /\ to_i32 (mouseData mi) = -120.
Proof.
  destruct (wheel_message_is_pure_wheel false
              (mkMouse (Some LeftDown) None None (Some 1) None (Some (-120))) (-120) eq_refl)
    as (mi & Hev & Hfl & _ & Hdata).
  exists mi. split; [exact Hev|]. split; [exact Hfl|]. exact Hdata.
Defined.

End SendInputMoreFacts.

(* ===================================================================== *)
(** * Properties of the display mode change, the program path and the
      impersonation helper *)
(* ===================================================================== *)

Module SystemMoreFacts.

Import System SystemMore.

(** ** changeDisplaySettings *)

Ltac list_cases H :=
  match type of H with
  | _ = ?pre ++ _ =>
      destruct pre as [|?a [|?b [|?c [|?d ?pre']]]]; simpl in H;
      inversion H; subst; clear H
  end.

(** X17.  [changeDisplaySettings] makes no request when the current mode
    cannot be read, and at most three otherwise, all for the requested
    width, height and frequency.  It returns [true] exactly when the
    last request it made was accepted, and every request before the last
    was refused. *)
Theorem changeDisplaySettings_outcome :
  forall (Change : list ChangeRequest -> ChangeRequest -> Z) (env : Win32Display)
         (w h f : Z),
    let r := changeDisplaySettings Change env w h f in
    (EnumDisplaySettings env = None -> r = (false, []))
    /\ (List.length (snd r) <= 3)%nat
    /\ (forall req, In req (snd r) ->
          (new_width req, new_height req, new_frequency req)
          = (to_u32 w, to_u32 h, to_u32 f))
    /\ (fst r = true <->
        exists pre req, snd r = pre ++ [req]
                        /\ Change pre req = DISP_CHANGE_SUCCESSFUL)
    /\ (forall pre req post,
          snd r = pre ++ req :: post -> post <> [] ->
          Change pre req <> DISP_CHANGE_SUCCESSFUL).
Proof.
  intros Change env w h f. unfold changeDisplaySettings, DISP_CHANGE_SUCCESSFUL.
  destruct (EnumDisplaySettings env) as [dm|]; cbv zeta.
  2:{ split; [reflexivity|]. split; [simpl; lia|]. split; [intros req []|].
      split; [split; [discriminate|]|].
      - intros (pre & req & Hl & _). destruct pre; discriminate Hl.
      - intros pre req post Hl. destruct pre; discriminate Hl. }
  set (r1 := mkChange _ _ _ _).
  set (r2 := mkChange _ _ _ (Z.lor _ _)).
  set (r3 := mkChange _ _ _ DM_DISPLAYFREQUENCY).
  split; [intros Hn; discriminate Hn|].
  destruct (Z.eqb_spec (Change [] r1) 0) as [H1|H1];
    [|destruct (Z.eqb_spec (Change [r1] r2) 0) as [H2|H2];
      [|destruct (Z.eqb_spec (Change [r1; r2] r3) 0) as [H3|H3]]];
    cbn [fst snd List.length];
    (split; [lia|]);
    (split; [intros req Hin; simpl in Hin;
             repeat (destruct Hin as [<-|Hin]; [reflexivity|]); contradiction|]);
    split.
  - split; [intros _; exists [], r1; split; [reflexivity | exact H1] | reflexivity].
  - intros pre req post Hl Hp. list_cases Hl; exfalso; apply Hp; reflexivity.
  - split; [intros _; exists [r1], r2; split; [reflexivity | exact H2] | reflexivity].
  - intros pre req post Hl Hp. list_cases Hl; try exact H1;
      exfalso; apply Hp; reflexivity.
  - split; [intros _; exists [r1; r2], r3; split; [reflexivity | exact H3] | reflexivity].
  - intros pre req post Hl Hp. list_cases Hl; try exact H1; try exact H2;
      exfalso; apply Hp; reflexivity.
  - split; [discriminate|].
    intros (pre & req & Hl & Hok).
    change [r1; r2; r3] with ([r1; r2] ++ [r3]) in Hl.
    apply app_inj_tail in Hl. destruct Hl as [<- <-]. contradiction.
  - intros pre req post Hl Hp. list_cases Hl; try exact H1; try exact H2;
      exfalso; apply Hp; reflexivity.
Qed.

(** A system that refuses the full request and accepts the resolution. *)
Lemma changeDisplaySettings_outcome_witness :
  changeDisplaySettings (fun pre _ => match pre with [] => 1 | _ => 0 end)
    (mkDisplay None 0 0) 1920 1080 60 = (false, [])
  /\ fst (changeDisplaySettings (fun pre _ => match pre with [] => 1 | _ => 0 end)
            (mkDisplay (Some (mkDevmode 2560 1440 144)) 0 0) 1920 1080 60) = true.
Proof.
  split.
  - apply (proj1 (changeDisplaySettings_outcome
                    (fun pre _ => match pre with [] => 1 | _ => 0 end)
                    (mkDisplay None 0 0) 1920 1080 60)).
    reflexivity.
  - apply (proj2 (proj1 (proj2 (proj2 (proj2 (changeDisplaySettings_outcome
                    (fun pre _ => match pre with [] => 1 | _ => 0 end)
                    (mkDisplay (Some (mkDevmode 2560 1440 144)) 0 0) 1920 1080 60)))))).
    eexists [_], _. split; reflexivity.
Defined.

(** X18.  When the current mode can be read, the first request asks to
    change exactly the members that differ from it: DM_PELSWIDTH,
    DM_PELSHEIGHT and DM_DISPLAYFREQUENCY are set one by one for a
    different width, height and frequency, and no other bit is; a
    request (with no field selected) is made even when nothing
    differs. *)
Theorem changeDisplaySettings_first_request :
  forall (Change : list ChangeRequest -> ChangeRequest -> Z) (env : Win32Display)
         (dm : DEVMODE) (w h f : Z),
    EnumDisplaySettings env = Some dm ->
    exists req rest,
      snd (changeDisplaySettings Change env w h f) = req :: rest
      /\ dmFields req =
           (if to_u32 (dmPelsWidth dm) =? to_u32 w then 0 else DM_PELSWIDTH)
           + (if to_u32 (dmPelsHeight dm) =? to_u32 h then 0 else DM_PELSHEIGHT)
           + (if to_u32 (dmDisplayFrequency dm) =? to_u32 f then 0 else DM_DISPLAYFREQUENCY)
      /\ Z.testbit (dmFields req) 19 = negb (to_u32 (dmPelsWidth dm) =? to_u32 w)
      /\ Z.testbit (dmFields req) 20 = negb (to_u32 (dmPelsHeight dm) =? to_u32 h)
      /\ Z.testbit (dmFields req) 22
         = negb (to_u32 (dmDisplayFrequency dm) =? to_u32 f).
Proof.
  intros Change env dm w h f He. unfold changeDisplaySettings. rewrite He. cbv zeta.
  set (r1 := mkChange _ _ _ _).
  assert (Hfields :
    dmFields r1 =
      (if to_u32 (dmPelsWidth dm) =? to_u32 w then 0 else DM_PELSWIDTH)
      + (if to_u32 (dmPelsHeight dm) =? to_u32 h then 0 else DM_PELSHEIGHT)
      + (if to_u32 (dmDisplayFrequency dm) =? to_u32 f then 0 else DM_DISPLAYFREQUENCY)).
  { subst r1. cbn [dmFields].
    destruct (to_u32 (dmPelsWidth dm) =? to_u32 w),
             (to_u32 (dmPelsHeight dm) =? to_u32 h),
             (to_u32 (dmDisplayFrequency dm) =? to_u32 f); reflexivity. }
  assert (Hbits :
    Z.testbit (dmFields r1) 19 = negb (to_u32 (dmPelsWidth dm) =? to_u32 w)
    /\ Z.testbit (dmFields r1) 20 = negb (to_u32 (dmPelsHeight dm) =? to_u32 h)
    /\ Z.testbit (dmFields r1) 22 = negb (to_u32 (dmDisplayFrequency dm) =? to_u32 f)).
  { rewrite Hfields.
    destruct (to_u32 (dmPelsWidth dm) =? to_u32 w),
             (to_u32 (dmPelsHeight dm) =? to_u32 h),
             (to_u32 (dmDisplayFrequency dm) =? to_u32 f); repeat split. }
  destruct (Change [] r1 =? DISP_CHANGE_SUCCESSFUL);
    [|destruct (Change [r1] _ =? DISP_CHANGE_SUCCESSFUL);
      [|destruct (Change [r1; _] _ =? DISP_CHANGE_SUCCESSFUL)]];
    cbn [snd]; eexists; eexists; (split; [reflexivity|]);
    (split; [exact Hfields | exact Hbits]).
Qed.

Lemma changeDisplaySettings_first_request_witness :
  exists req rest,
    snd (changeDisplaySettings (fun _ _ => 0)
           (mkDisplay (Some (mkDevmode 1920 1080 60)) 0 0) 1920 1080 144) = req :: rest
    /\ dmFields req = DM_DISPLAYFREQUENCY.
Proof.
  destruct (changeDisplaySettings_first_request (fun _ _ => 0)
              (mkDisplay (Some (mkDevmode 1920 1080 60)) 0 0)
              (mkDevmode 1920 1080 60) 1920 1080 144 eq_refl)
    as (req & rest & Hl & Hf & _).
  exists req, rest. split; [exact Hl|]. rewrite Hf. reflexivity.
Defined.

(** ** Program path *)

Lemma rfind_None :
  forall ch s, rfind ch s = None <-> ~ In ch s.
Proof.
  intros ch s. induction s as [|c rest IH]; simpl.
  - split; [intros _ [] | reflexivity].
  - destruct (rfind ch rest) as [i|].
    + split; [discriminate|]. intros Hn. exfalso.
      assert (Hnone : Some i = None)
        by (apply IH; intros Hin; apply Hn; right; exact Hin).
      discriminate Hnone.
    + destruct (Z.eqb_spec c ch) as [Heq|Hne].
      * split; [discriminate|]. intros Hn. exfalso. apply Hn. left. exact Heq.
      * split; [|reflexivity]. intros _ [Heq|Hin]; [contradiction|].
        apply (proj1 IH eq_refl). exact Hin.
Qed.

(** The index [rfind] returns splits the string at the last occurrence. *)
Lemma rfind_Some :
  forall ch s i,
    rfind ch s = Some i ->
    exists leaf, s = firstn i s ++ ch :: leaf /\ ~ In ch leaf.
Proof.
  intros ch s. induction s as [|c rest IH]; intros i Hr; simpl in Hr.
  - discriminate.
  - destruct (rfind ch rest) as [j|] eqn:Hrest.
    + injection Hr as <-. destruct (IH j eq_refl) as (leaf & Hs & Hn).
      exists leaf. simpl. split; [f_equal; exact Hs | exact Hn].
    + destruct (Z.eqb_spec c ch) as [Heq|Hne]; [|discriminate].
      injection Hr as <-. subst c. exists rest. simpl.
      split; [reflexivity|]. apply rfind_None. exact Hrest.
Qed.

(** X19.  On Windows, when [getProgramPath] succeeds the path it stores is
    the file name up to, and without, its last backslash: the file name
    is the path, a backslash and a last component free of backslashes.
    It fails exactly when the file name could not be obtained or holds
    no backslash. *)
Theorem windows_program_path_splits_filename :
  forall (api : Z * list Z),
    (forall path,
       Windows.getProgramPath api = Some path ->
       exists filename leaf,
         Windows.getProgramFilename api = Some filename
         /\ filename = path ++ 92 :: leaf
         /\ ~ In 92 leaf)
    /\ (Windows.getProgramPath api = None <->
        Windows.getProgramFilename api = None
        \/ exists filename,
             Windows.getProgramFilename api = Some filename /\ ~ In 92 filename).
Proof.
  intros api. unfold Windows.getProgramPath.
  destruct (Windows.getProgramFilename api) as [filename|].
  - destruct (rfind 92 filename) as [pos|] eqn:Hr.
    + split.
      * intros path Hp. injection Hp as <-.
        destruct (rfind_Some 92 filename pos Hr) as (leaf & Hs & Hn).
        exists filename, leaf. repeat split; assumption.
      * split; [discriminate|].
        intros [Hn|(fn & Hfn & Hn)]; [discriminate|].
        injection Hfn as <-. apply rfind_None in Hn. congruence.
    + split; [discriminate|].
      split; [|reflexivity]. intros _. right. exists filename.
      split; [reflexivity|]. apply rfind_None. exact Hr.
  - split; [discriminate|]. split; [intros _; left; reflexivity | reflexivity].
Qed.

(** C:\lt\app.exe *)
Lemma windows_program_path_splits_filename_witness :
  exists filename leaf,
    Windows.getProgramFilename (13, [67; 58; 92; 108; 116; 92; 97; 112; 112; 46; 101; 120; 101])
    = Some filename
    /\ filename = [67; 58; 92; 108; 116] ++ 92 :: leaf
    /\ ~ In 92 leaf.
Proof.
  apply (proj1 (windows_program_path_splits_filename
                  (13, [67; 58; 92; 108; 116; 92; 97; 112; 112; 46; 101; 120; 101]))).
  reflexivity.
Defined.

(** X20.  On Linux, a non-empty result of [getProgramPath] is the full
    path up to, and without, its last slash.  The result is empty
    exactly when [readlink] gave nothing, when the full path holds no
    slash, or when its only slash is the leading one (a program in the
    root directory). *)
Theorem linux_program_path_splits_fullpath :
  forall (readlink : Z * list Z),
    let p := Linux.getProgramPath readlink in
    let full := Linux.getProgramFullpath readlink in
    (p <> [] -> exists leaf, full = p ++ 47 :: leaf /\ ~ In 47 leaf)
    /\ (p = [] <->
        full = [] \/ ~ In 47 full \/ exists leaf, full = 47 :: leaf /\ ~ In 47 leaf).
Proof.
  intros readlink. cbv zeta. unfold Linux.getProgramPath.
  destruct (Linux.getProgramFullpath readlink) as [|c rest] eqn:Hfull.
  - split; [intros Hn; exfalso; apply Hn; reflexivity|].
    split; [intros _; left; reflexivity | reflexivity].
  - destruct (rfind 47 (c :: rest)) as [pos|] eqn:Hr.
    + destruct (rfind_Some 47 (c :: rest) pos Hr) as (leaf & Hs & Hn).
      split.
      * intros _. exists leaf. split; assumption.
      * split.
        -- intros Hp. right. right. rewrite Hp in Hs. simpl in Hs.
           exists leaf. split; assumption.
        -- intros [Hx|[Hx|(leaf' & Hl & Hn')]].
           ++ discriminate Hx.
           ++ apply rfind_None in Hx. congruence.
           ++ destruct pos as [|pos']; [reflexivity|]. exfalso.
              injection Hl as -> ->. simpl in Hs.
              injection Hs as Hs. apply Hn'. rewrite Hs.
              apply in_or_app. right. left. reflexivity.
    + split; [intros Hn; exfalso; apply Hn; reflexivity|].
      split; [|reflexivity]. intros _. right. left.
      apply rfind_None. exact Hr.
Qed.

(** /opt/lt/app *)
Lemma linux_program_path_splits_fullpath_witness :
  exists leaf,
    Linux.getProgramFullpath (11, [47; 111; 112; 116; 47; 108; 116; 47; 97; 112; 112])
    = Linux.getProgramPath (11, [47; 111; 112; 116; 47; 108; 116; 47; 97; 112; 112])
      ++ 47 :: leaf
    /\ ~ In 47 leaf.
Proof.
  apply (proj1 (linux_program_path_splits_fullpath
                  (11, [47; 111; 112; 116; 47; 108; 116; 47; 97; 112; 112]))).
  discriminate.
Defined.

(** ** executeAsUser *)

(** X21.  [executeAsUser] runs the callback only between a successful
    ImpersonateLoggedOnUser and a RevertToSelf on the token it obtained,
    returns what the callback returned (and [false] whenever it did not
    run), and closes the token whenever it tried to impersonate. *)
Theorem executeAsUser_brackets_callback :
  forall (env : Windows.Impersonation),
    let r := Windows.executeAsUser env in
    let token := snd (Windows.GetTokenByName env) in
    (forall t, In (Windows.Call_func t) (snd r) ->
       t = token
       /\ Windows.ImpersonateLoggedOnUser env token = true
       /\ fst r = Windows.func env token
       /\ snd r = [Windows.Call_GetTokenByName; Windows.Call_ImpersonateLoggedOnUser token;
                   Windows.Call_func token; Windows.Call_RevertToSelf;
                   Windows.Call_CloseHandle token])
    /\ ((forall t, ~ In (Windows.Call_func t) (snd r)) -> fst r = false)
    /\ (forall t, In (Windows.Call_ImpersonateLoggedOnUser t) (snd r) ->
          t <> 0 /\ last (snd r) Windows.Call_GetTokenByName = Windows.Call_CloseHandle t).
Proof.
  intros env. cbv zeta. unfold Windows.executeAsUser.
  destruct (fst (Windows.GetTokenByName env)); cbn [negb].
  2:{ split; [intros t [H|[]]; discriminate H|].
      split; [reflexivity|]. intros t [H|[]]; discriminate H. }
  destruct (Z.eqb_spec (snd (Windows.GetTokenByName env)) 0) as [Hz|Hz].
  { split; [intros t [H|[]]; discriminate H|].
    split; [reflexivity|]. intros t [H|[]]; discriminate H. }
  destruct (Windows.ImpersonateLoggedOnUser env (snd (Windows.GetTokenByName env)))
    eqn:Himp; cbn [negb fst snd].
  - split.
    + intros t Hin. simpl in Hin.
      destruct Hin as [H|[H|[H|[H|[H|[]]]]]]; try discriminate H.
      injection H as <-. repeat split; reflexivity.
    + split.
      * intros Hno. exfalso. apply (Hno (snd (Windows.GetTokenByName env))).
        simpl. tauto.
      * intros t Hin. simpl in Hin.
        destruct Hin as [H|[H|[H|[H|[H|[]]]]]]; try discriminate H.
        injection H as <-. split; [exact Hz | reflexivity].
  - split.
    + intros t Hin. simpl in Hin.
      destruct Hin as [H|[H|[H|[]]]]; discriminate H.
    + split; [reflexivity|].
      intros t Hin. simpl in Hin.
      destruct Hin as [H|[H|[H|[]]]]; try discriminate H.
      injection H as <-. split; [exact Hz | reflexivity].
Qed.

Lemma executeAsUser_brackets_callback_witness :
  fst (Windows.executeAsUser
         (Windows.mkImpersonation (true, 44) (fun _ => true) (fun _ => true) false))
  = true
  /\ fst (Windows.executeAsUser
            (Windows.mkImpersonation (true, 0) (fun _ => true) (fun _ => true) true))
     = false.
Proof.
  split.
  - apply (proj1 (executeAsUser_brackets_callback
                    (Windows.mkImpersonation (true, 44) (fun _ => true) (fun _ => true)
                       false)) 44).
    simpl. tauto.
  - apply (proj1 (proj2 (executeAsUser_brackets_callback
                    (Windows.mkImpersonation (true, 0) (fun _ => true) (fun _ => true)
                       true)))).
    intros t Hin. simpl in Hin. destruct Hin as [H|[]]. discriminate H.
Defined.

End SystemMoreFacts.
